(** * hash.py: a digest tool driven by two environment variables

    The program reads [DATA] and [ALGO] from the process environment, checks
    them, hashes the UTF-8 encoding of [DATA] with [hashlib] and prints a JSON
    object; every exception is turned into an [Error: ...] line on standard
    output and exit status 1.

    Python values are embedded as follows.
    - [str] is the sequence of its code points, each a [Z];
    - [bytes] is the sequence of its octets, each a [Z];
    - [os.environ] is a finite map from variable names to [str];
    - [sys.stdout] and [sys.stderr] are the text written so far, line
      terminators included; what the codec of [sys.stdout] cannot write is
      a parameter of the run, since the process setup chooses it, and
      [print] raises on such text as the stream does;
    - exceptions are the error side of a small state-and-error monad; an
      exception that nothing catches ends the run with a traceback on
      standard error and exit status 1.

    [hashlib.sha256] and [hashlib.md5] are library code; they are modelled
    here from FIPS 180-4 and RFC 1321 and checked on published values. *)

From Stdlib Require Import ZArith Lia List Ascii String.
From stdpp Require Import gmap strings list.

Local Open Scope Z_scope.

(** ** Python text *)

Module Py.

(** A string literal of the source: its characters are ASCII there. *)
Definition lit (s : string) : list Z :=
  List.map (fun a => Z.of_N (N_of_ascii a)) (list_ascii_of_string s).

(** [sep.join(parts)] *)
Fixpoint join (sep : list Z) (parts : list (list Z)) : list Z :=
  match parts with
  | [] => []
  | [p] => p
  | p :: rest => p ++ sep ++ join sep rest
  end.

(** One lowercase hexadecimal digit, for the low four bits of [n]. *)
Definition hexdigit (n : Z) : Z :=
  nth (Z.to_nat (Z.land n 15)) (lit "0123456789abcdef") 48.

(** [format(n, '0<width>x')] for [0 <= n < 16 ^ width]. *)
Definition hex_fixed (width : nat) (n : Z) : list Z :=
  List.map (fun i => hexdigit (Z.shiftr n (4 * Z.of_nat i))) (rev (seq 0 width)).

(** [str(n)] for a natural number: decimal digits, most significant first. *)
Fixpoint decimal_aux (fuel : nat) (n : Z) (acc : list Z) : list Z :=
  match fuel with
  | O => acc
  | S fuel' =>
      let acc' := (48 + n mod 10) :: acc in
      if n / 10 =? 0 then acc' else decimal_aux fuel' (n / 10) acc'
  end.

Definition decimal (n : nat) : list Z :=
  decimal_aux (S n) (Z.of_nat n) [].

(** Code points that [str.encode('utf-8')] refuses. *)
Definition is_surrogate (c : Z) : bool := (0xD800 <=? c) && (c <=? 0xDFFF).

(** Unicode scalar values: what a well-formed text is made of. *)
Definition is_scalar (c : Z) : bool :=
  (0 <=? c) && (c <=? 0x10FFFF) && negb (is_surrogate c).

Definition is_text (s : list Z) : bool := forallb is_scalar s.

(** The octets of one code point in UTF-8. *)
Definition utf8_char (c : Z) : list Z :=
  if c <? 0x80 then [Z.land c 0x7F]
  else if c <? 0x800 then
    [Z.lor 0xC0 (Z.land (Z.shiftr c 6) 0x1F);
     Z.lor 0x80 (Z.land c 0x3F)]
  else if c <? 0x10000 then
    [Z.lor 0xE0 (Z.land (Z.shiftr c 12) 0x0F);
     Z.lor 0x80 (Z.land (Z.shiftr c 6) 0x3F);
     Z.lor 0x80 (Z.land c 0x3F)]
  else
    [Z.lor 0xF0 (Z.land (Z.shiftr c 18) 0x07);
     Z.lor 0x80 (Z.land (Z.shiftr c 12) 0x3F);
     Z.lor 0x80 (Z.land (Z.shiftr c 6) 0x3F);
     Z.lor 0x80 (Z.land c 0x3F)].

(** Length of the run of surrogates at the head of [s]. *)
Fixpoint surrogate_run (s : list Z) : nat :=
  match s with
  | c :: s' => if is_surrogate c then S (surrogate_run s') else O
  | [] => O
  end.

(** The strict UTF-8 encoder. On the first surrogate it stops and reports
    the slice [start, stop) of the whole run of surrogates found there. *)
Fixpoint utf8_from (pos : nat) (s : list Z) : (nat * nat) + list Z :=
  match s with
  | [] => inr []
  | c :: s' =>
      if is_surrogate c then inl (pos, S pos + surrogate_run s')%nat
      else match utf8_from (S pos) s' with
           | inl e => inl e
           | inr bs => inr (utf8_char c ++ bs)
           end
  end.

Definition utf8 (s : list Z) : (nat * nat) + list Z := utf8_from 0 s.

(** A continuation octet, 10xxxxxx. *)
Definition is_cont (b : Z) : bool := (0x80 <=? b) && (b <=? 0xBF).

(** The payload bits of lead and continuation octets, put together. *)
Definition join6 (hi lo : Z) : Z := Z.lor (Z.shiftl hi 6) (Z.land lo 0x3F).

(** Decoder of RFC 3629: shortest forms only, no surrogates, nothing above
    U+10FFFF. *)
Fixpoint utf8_decode (bs : list Z) : option (list Z) :=
  match bs with
  | [] => Some []
  | b0 :: r0 =>
      if (0 <=? b0) && (b0 <? 0x80) then cons b0 <$> utf8_decode r0
      else if (0xC0 <=? b0) && (b0 <? 0xE0) then
        match r0 with
        | b1 :: r1 =>
            let c := join6 (Z.land b0 0x1F) b1 in
            if is_cont b1 && (0x80 <=? c) then cons c <$> utf8_decode r1
            else None
        | _ => None
        end
      else if (0xE0 <=? b0) && (b0 <? 0xF0) then
        match r0 with
        | b1 :: b2 :: r2 =>
            let c := join6 (join6 (Z.land b0 0x0F) b1) b2 in
            if is_cont b1 && is_cont b2 && (0x800 <=? c) && negb (is_surrogate c)
            then cons c <$> utf8_decode r2
            else None
        | _ => None
        end
      else if (0xF0 <=? b0) && (b0 <? 0xF8) then
        match r0 with
        | b1 :: b2 :: b3 :: r3 =>
            let c := join6 (join6 (join6 (Z.land b0 0x07) b1) b2) b3 in
            if is_cont b1 && is_cont b2 && is_cont b3
               && (0x10000 <=? c) && (c <=? 0x10FFFF)
            then cons c <$> utf8_decode r3
            else None
        | _ => None
        end
      else None
  end.

End Py.

(** ** The two digests of [hashlib] the tool can select *)

(** Octets of a word, most significant first and least significant first. *)
Definition be_bytes (n : nat) (x : Z) : list Z :=
  List.map (fun i => Z.land (Z.shiftr x (8 * Z.of_nat i)) 0xFF) (rev (seq 0 n)).

Definition le_bytes (n : nat) (x : Z) : list Z :=
  List.map (fun i => Z.land (Z.shiftr x (8 * Z.of_nat i)) 0xFF) (seq 0 n).

Definition be_word (bs : list Z) : Z :=
  fold_left (fun acc b => Z.lor (Z.shiftl acc 8) (Z.land b 0xFF)) bs 0.

Definition le_word (bs : list Z) : Z := be_word (rev bs).

(** The [i]-th 64-octet block of a padded message, as sixteen 4-octet groups. *)
Definition block_groups (msg : list Z) (i : nat) : list (list Z) :=
  let blk := firstn 64 (skipn (64 * i) msg) in
  List.map (fun j => firstn 4 (skipn (4 * j) blk)) (seq 0 16).

Definition add32 (x y : Z) : Z := (x + y) mod 2 ^ 32.
Definition not32 (x : Z) : Z := Z.lxor x 0xFFFFFFFF.
Definition rotl32 (n x : Z) : Z :=
  Z.lor (Z.land (Z.shiftl x n) 0xFFFFFFFF) (Z.shiftr x (32 - n)).
Definition rotr32 (n x : Z) : Z := rotl32 (32 - n) x.

(** Zero octets needed after the [0x80] marker so that, with the 8-octet
    length, the message fills whole 64-octet blocks. *)
Definition pad_zeros (len : nat) : nat :=
  Z.to_nat ((55 - Z.of_nat len) mod 64).

Module SHA256.

Definition primes : list Z :=
  [2; 3; 5; 7; 11; 13; 17; 19; 23; 29; 31; 37; 41; 43; 47; 53;
   59; 61; 67; 71; 73; 79; 83; 89; 97; 101; 103; 107; 109; 113; 127; 131;
   137; 139; 149; 151; 157; 163; 167; 173; 179; 181; 191; 193; 197; 199;
   211; 223; 227; 229; 233; 239; 241; 251; 257; 263; 269; 271; 277; 281;
   283; 293; 307; 311].

(** Integer cube root, one bit at a time. *)
Definition icbrt (n : Z) : Z :=
  fold_left (fun r b => let r' := r + 2 ^ Z.of_nat b in
                        if r' * r' * r' <=? n then r' else r)
            (rev (seq 0 40)) 0.

(** Round constants: the first 32 bits of the fractional parts of the cube
    roots of the first 64 primes. *)
Definition K : list Z :=
  Eval vm_compute in List.map (fun p => icbrt (p * 2 ^ 96) mod 2 ^ 32) primes.

(** Initial state: the same for the square roots of the first 8 primes. *)
Definition H0 : list Z :=
  Eval vm_compute in
    List.map (fun p => Z.sqrt (p * 2 ^ 64) mod 2 ^ 32) (firstn 8 primes).

Definition Ch (x y z : Z) : Z := Z.lxor (Z.land x y) (Z.land (not32 x) z).
Definition Maj (x y z : Z) : Z :=
  Z.lxor (Z.lxor (Z.land x y) (Z.land x z)) (Z.land y z).
Definition Sigma0 (x : Z) : Z :=
  Z.lxor (Z.lxor (rotr32 2 x) (rotr32 13 x)) (rotr32 22 x).
Definition Sigma1 (x : Z) : Z :=
  Z.lxor (Z.lxor (rotr32 6 x) (rotr32 11 x)) (rotr32 25 x).
Definition sigma0 (x : Z) : Z :=
  Z.lxor (Z.lxor (rotr32 7 x) (rotr32 18 x)) (Z.shiftr x 3).
Definition sigma1 (x : Z) : Z :=
  Z.lxor (Z.lxor (rotr32 17 x) (rotr32 19 x)) (Z.shiftr x 10).

(** The message schedule is kept newest word first, so that W[t-2], W[t-7],
    W[t-15] and W[t-16] sit at fixed offsets. *)
Definition extend (W : list Z) : list Z :=
  add32 (add32 (add32 (sigma1 (nth 1 W 0)) (nth 6 W 0))
               (sigma0 (nth 14 W 0))) (nth 15 W 0) :: W.

Definition schedule (groups : list (list Z)) : list Z :=
  rev (Nat.iter 48 extend (rev (List.map be_word groups))).

Record vars := Vars { va : Z; vb : Z; vc : Z; vd : Z;
                      ve : Z; vf : Z; vg : Z; vh : Z }.

Definition round (v : vars) (kw : Z * Z) : vars :=
  let t1 := add32 (add32 (add32 (add32 (vh v) (Sigma1 (ve v)))
                                (Ch (ve v) (vf v) (vg v))) (fst kw)) (snd kw) in
  let t2 := add32 (Sigma0 (va v)) (Maj (va v) (vb v) (vc v)) in
  Vars (add32 t1 t2) (va v) (vb v) (vc v) (add32 (vd v) t1) (ve v) (vf v) (vg v).

Definition of_list (l : list Z) : vars :=
  Vars (nth 0 l 0) (nth 1 l 0) (nth 2 l 0) (nth 3 l 0)
       (nth 4 l 0) (nth 5 l 0) (nth 6 l 0) (nth 7 l 0).

Definition compress (H : vars) (groups : list (list Z)) : vars :=
  let v := fold_left round (combine K (schedule groups)) H in
  Vars (add32 (va H) (va v)) (add32 (vb H) (vb v))
       (add32 (vc H) (vc v)) (add32 (vd H) (vd v))
       (add32 (ve H) (ve v)) (add32 (vf H) (vf v))
       (add32 (vg H) (vg v)) (add32 (vh H) (vh v)).

Definition pad (msg : list Z) : list Z :=
  msg ++ [0x80] ++ repeat 0 (pad_zeros (length msg))
      ++ be_bytes 8 (8 * Z.of_nat (length msg)).

Definition digest (msg : list Z) : list Z :=
  let m := pad msg in
  let H := fold_left (fun H i => compress H (block_groups m i))
                     (seq 0 (length m / 64)) (of_list H0) in
  be_bytes 4 (va H) ++ be_bytes 4 (vb H) ++ be_bytes 4 (vc H)
    ++ be_bytes 4 (vd H) ++ be_bytes 4 (ve H) ++ be_bytes 4 (vf H)
    ++ be_bytes 4 (vg H) ++ be_bytes 4 (vh H).

End SHA256.

Module MD5.

(** Per-round left rotations. *)
Definition S : list Z :=
  [7; 12; 17; 22; 7; 12; 17; 22; 7; 12; 17; 22; 7; 12; 17; 22;
   5; 9; 14; 20; 5; 9; 14; 20; 5; 9; 14; 20; 5; 9; 14; 20;
   4; 11; 16; 23; 4; 11; 16; 23; 4; 11; 16; 23; 4; 11; 16; 23;
   6; 10; 15; 21; 6; 10; 15; 21; 6; 10; 15; 21; 6; 10; 15; 21].

(** Round constants: [floor (2^32 * |sin (i + 1)|)] for [i] from 0 to 63. *)
Definition T : list Z :=
  [0xd76aa478; 0xe8c7b756; 0x242070db; 0xc1bdceee;
   0xf57c0faf; 0x4787c62a; 0xa8304613; 0xfd469501;
   0x698098d8; 0x8b44f7af; 0xffff5bb1; 0x895cd7be;
   0x6b901122; 0xfd987193; 0xa679438e; 0x49b40821;
   0xf61e2562; 0xc040b340; 0x265e5a51; 0xe9b6c7aa;
   0xd62f105d; 0x02441453; 0xd8a1e681; 0xe7d3fbc8;
   0x21e1cde6; 0xc33707d6; 0xf4d50d87; 0x455a14ed;
   0xa9e3e905; 0xfcefa3f8; 0x676f02d9; 0x8d2a4c8a;
   0xfffa3942; 0x8771f681; 0x6d9d6122; 0xfde5380c;
   0xa4beea44; 0x4bdecfa9; 0xf6bb4b60; 0xbebfbc70;
   0x289b7ec6; 0xeaa127fa; 0xd4ef3085; 0x04881d05;
   0xd9d4d039; 0xe6db99e5; 0x1fa27cf8; 0xc4ac5665;
   0xf4292244; 0x432aff97; 0xab9423a7; 0xfc93a039;
   0x655b59c3; 0x8f0ccc92; 0xffeff47d; 0x85845dd1;
   0x6fa87e4f; 0xfe2ce6e0; 0xa3014314; 0x4e0811a1;
   0xf7537e82; 0xbd3af235; 0x2ad7d2bb; 0xeb86d391].

Record vars := Vars { va : Z; vb : Z; vc : Z; vd : Z }.

Definition init : vars := Vars 0x67452301 0xefcdab89 0x98badcfe 0x10325476.

(** The mixing function of step [i] and the index of the message word it
    reads. *)
Definition mix (i : nat) (b c d : Z) : Z :=
  if (i <? 16)%nat then Z.lor (Z.land b c) (Z.land (not32 b) d)
  else if (i <? 32)%nat then Z.lor (Z.land d b) (Z.land (not32 d) c)
  else if (i <? 48)%nat then Z.lxor (Z.lxor b c) d
  else Z.lxor c (Z.lor b (not32 d)).

Definition word_index (i : nat) : nat :=
  if (i <? 16)%nat then i
  else if (i <? 32)%nat then (5 * i + 1) mod 16
  else if (i <? 48)%nat then (3 * i + 5) mod 16
  else (7 * i) mod 16.

Definition step (X : list Z) (v : vars) (i : nat) : vars :=
  let f := add32 (add32 (add32 (mix i (vb v) (vc v) (vd v)) (va v))
                        (nth i T 0)) (nth (word_index i) X 0) in
  Vars (vd v) (add32 (vb v) (rotl32 (nth i S 0) f)) (vb v) (vc v).

Definition compress (H : vars) (groups : list (list Z)) : vars :=
  let v := fold_left (step (List.map le_word groups)) (seq 0 64) H in
  Vars (add32 (va H) (va v)) (add32 (vb H) (vb v))
       (add32 (vc H) (vc v)) (add32 (vd H) (vd v)).

Definition pad (msg : list Z) : list Z :=
  msg ++ [0x80] ++ repeat 0 (pad_zeros (length msg))
      ++ le_bytes 8 (8 * Z.of_nat (length msg)).

Definition digest (msg : list Z) : list Z :=
  let m := pad msg in
  let H := fold_left (fun H i => compress H (block_groups m i))
                     (seq 0 (length m / 64)) init in
  le_bytes 4 (va H) ++ le_bytes 4 (vb H) ++ le_bytes 4 (vc H)
    ++ le_bytes 4 (vd H).

End MD5.

(** ** Exceptions, streams and the monad of the program *)

Inductive exn : Type :=
| ValueError (msg : list Z)
| UnicodeEncodeError (encoding object : list Z) (start stop : nat) (reason : list Z).

(** The escape CPython uses for a code point inside an error message. *)
Definition char_escape (c : Z) : list Z :=
  if c <=? 0xFF then Py.lit "\x" ++ Py.hex_fixed 2 c
  else if c <=? 0xFFFF then Py.lit "\u" ++ Py.hex_fixed 4 c
  else Py.lit "\U" ++ Py.hex_fixed 8 c.

(** [str(err)], the text an f-string inserts for [{err}]. *)
Definition exn_str (e : exn) : list Z :=
  match e with
  | ValueError msg => msg
  | UnicodeEncodeError enc obj start stop reason =>
      if bool_decide (stop = S start ∧ (start < length obj)%nat) then
        Py.lit "'" ++ enc ++ Py.lit "' codec can't encode character '"
          ++ char_escape (nth start obj 0) ++ Py.lit "' in position "
          ++ Py.decimal start ++ Py.lit ": " ++ reason
      else
        Py.lit "'" ++ enc ++ Py.lit "' codec can't encode characters in position "
          ++ Py.decimal start ++ Py.lit "-" ++ Py.decimal (stop - 1)
          ++ Py.lit ": " ++ reason
  end.

Record streams : Type := Streams { stdout : list Z; stderr : list Z }.

Inductive res (A : Type) : Type :=
| Returns (a : A)
| Raises (e : exn).
Arguments Returns {A} a.
Arguments Raises {A} e.

Definition M (A : Type) : Type := streams → res A * streams.

#[global] Instance M_ret : MRet M := λ A a st, (Returns a, st).

#[global] Instance M_bind : MBind M := λ A B k c st,
  match c st with
  | (Returns a, st') => k a st'
  | (Raises e, st') => (Raises e, st')
  end.

Definition raise {A : Type} (e : exn) : M A := λ st, (Raises e, st).

(** [sys.stdout] as the process was set up (locale, PYTHONIOENCODING): the
    name of its codec, the code points beyond ASCII that the codec with its
    error handler cannot write, and the reason the codec gives for them.
    ASCII can always be written. [traceback e e'] is the report the
    interpreter puts on standard error when [e'], raised while [e] was being
    handled, is caught by nothing. *)
Record console : Type := Console {
  encoding : list Z;
  rejects : Z → bool;
  reason : list Z;
  traceback : exn → exn → list Z }.

Definition unwritable (tty : console) (c : Z) : bool :=
  (0x80 <=? c) && rejects tty c.

(** Length of the run of unwritable code points at the head of [s]. *)
Fixpoint unwritable_run (tty : console) (s : list Z) : nat :=
  match s with
  | c :: s' => if unwritable tty c then S (unwritable_run tty s') else O
  | [] => O
  end.

(** The slice [start, stop) of the first run of unwritable code points. *)
Fixpoint first_unwritable (tty : console) (pos : nat) (s : list Z)
  : option (nat * nat) :=
  match s with
  | [] => None
  | c :: s' =>
      if unwritable tty c then Some (pos, (S pos + unwritable_run tty s')%nat)
      else first_unwritable tty (S pos) s'
  end.

(** [print(s)]: the text and a line terminator go to standard output. The
    stream encodes the whole text before it writes any of it, so a text the
    codec refuses raises and leaves the stream as it was. *)
Definition print (tty : console) (s : list Z) : M () :=
  λ st,
    match first_unwritable tty 0 s with
    | Some (start, stop) =>
        (Raises (UnicodeEncodeError (encoding tty) s start stop (reason tty)),
         st)
    | None => (Returns (), Streams (stdout st ++ s ++ [10]) (stderr st))
    end.

(** [s.encode('utf-8')] *)
Definition str_encode_utf8 (s : list Z) : M (list Z) :=
  match Py.utf8 s with
  | inr bs => mret bs
  | inl (start, stop) =>
      raise (UnicodeEncodeError (Py.lit "utf-8") s start stop
                                (Py.lit "surrogates not allowed"))
  end.

(** ** [json.dumps] on a dictionary of strings *)

Module Json.

Definition dquote : list Z := [34].

(** The replacement of one character that the encoder does not copy. *)
Definition escape_char (c : Z) : list Z :=
  if c =? 92 then Py.lit "\\"
  else if c =? 34 then [92; 34]
  else if c =? 8 then Py.lit "\b"
  else if c =? 12 then Py.lit "\f"
  else if c =? 10 then Py.lit "\n"
  else if c =? 13 then Py.lit "\r"
  else if c =? 9 then Py.lit "\t"
  else if c <? 0x10000 then Py.lit "\u" ++ Py.hex_fixed 4 c
  else
    let n := c - 0x10000 in
    Py.lit "\u" ++ Py.hex_fixed 4 (Z.lor 0xD800 (Z.land (Z.shiftr n 10) 0x3FF))
      ++ Py.lit "\u" ++ Py.hex_fixed 4 (Z.lor 0xDC00 (Z.land n 0x3FF)).

(** Characters copied as they are: space to tilde, except the double
    quote and the backslash. *)
Definition copied (c : Z) : bool :=
  (0x20 <=? c) && (c <=? 0x7E) && negb (c =? 34) && negb (c =? 92).

Definition encode_str (s : list Z) : list Z :=
  dquote ++ flat_map (fun c => if copied c then [c] else escape_char c) s
         ++ dquote.

(** A [dict] keeps its items in insertion order. *)
Definition dumps (d : list (list Z * list Z)) : list Z :=
  Py.lit "{"
    ++ Py.join (Py.lit ", ")
         (List.map (fun kv => encode_str (fst kv) ++ Py.lit ": "
                                ++ encode_str (snd kv)) d)
    ++ Py.lit "}".

End Json.

(** ** [hashlib] objects *)

Record HASH : Type := Hash { name : list Z; algorithm : list Z → list Z; fed : list Z }.

Definition HASH_update (h : HASH) (data : list Z) : HASH :=
  Hash (name h) (algorithm h) (fed h ++ data).

Definition HASH_hexdigest (h : HASH) : list Z :=
  flat_map (Py.hex_fixed 2) (algorithm h (fed h)).

(** ** The program *)

Definition SUPPORTED_HASH_ALGORITHMS : list (list Z) :=
  [Py.lit "sha256"; Py.lit "md5"].

Section Program.

(** What the interpreter brings along and the program does not fix:
    which code points beyond ASCII [str.isprintable] accepts (it decides how
    [repr] shows them), the constructors [hashlib.new] knows under names
    other than the two modelled above, and the console. *)
Variable isprintable : Z → bool.
Variable hashlib_other : list Z → option (list Z → list Z).
Variable tty : console.

(** [repr(s)] for a [str]. *)
Definition repr_quote (s : list Z) : Z :=
  if bool_decide (39 ∈ s) && negb (bool_decide (34 ∈ s)) then 34 else 39.

Definition repr_char (quote c : Z) : list Z :=
  if (c =? quote) || (c =? 92) then [92; c]
  else if c =? 9 then Py.lit "\t"
  else if c =? 10 then Py.lit "\n"
  else if c =? 13 then Py.lit "\r"
  else if (c <? 32) || (c =? 0x7F) then Py.lit "\x" ++ Py.hex_fixed 2 c
  else if c <? 0x7F then [c]
  else if isprintable c then [c]
  else char_escape c.

Definition repr_str (s : list Z) : list Z :=
  let q := repr_quote s in [q] ++ flat_map (repr_char q) s ++ [q].

(** [str(l)] for a list of strings, as an f-string inserts it. *)
Definition str_list (l : list (list Z)) : list Z :=
  Py.lit "[" ++ Py.join (Py.lit ", ") (List.map repr_str l) ++ Py.lit "]".

(** [os.getenv(key)] and [os.getenv(key, default)] *)
Definition os_getenv (environ : gmap string (list Z)) (key : string)
  : option (list Z) := environ !! key.

Definition os_getenv_default (environ : gmap string (list Z)) (key : string)
    (default : list Z) : list Z :=
  match environ !! key with
  | Some v => v
  | None => default
  end.

(** [hashlib.new(name)] *)
Definition hashlib_new (nm : list Z) : M HASH :=
  if bool_decide (nm = Py.lit "sha256") then mret (Hash nm SHA256.digest [])
  else if bool_decide (nm = Py.lit "md5") then mret (Hash nm MD5.digest [])
  else match hashlib_other nm with
       | Some f => mret (Hash nm f [])
       | None => raise (ValueError (Py.lit "unsupported hash type " ++ nm))
       end.

(** [main()]. The test [not data] holds for [None] and for the empty
    string. *)
Definition main (environ : gmap string (list Z)) : M () :=
  match os_getenv environ "DATA" with
  | None | Some [] =>
      raise (ValueError (Py.lit "A data argument must be provided"))
  | Some data =>
      let algo := os_getenv_default environ "ALGO" (Py.lit "sha256") in
      if bool_decide (algo ∉ SUPPORTED_HASH_ALGORITHMS) then
        raise (ValueError (Py.lit "Unsupported hash algorithm: " ++ algo
                             ++ Py.lit " not in "
                             ++ str_list SUPPORTED_HASH_ALGORITHMS))
      else
        hash_obj ← hashlib_new algo;
        encoded ← str_encode_utf8 data;
        let hash_obj := HASH_update hash_obj encoded in
        print tty (Json.dumps [(Py.lit "algo", algo);
                           (Py.lit "hash", HASH_hexdigest hash_obj)])
  end.

(** What a run leaves behind: the two streams and the exit status. *)
Record outcome : Type := Outcome { out : streams; status : Z }.

(** The [__main__] guard: any exception of [main] is printed to standard
    output behind [Error: ] and [sys.exit(1)] ends the process. When that
    [print] raises in its turn, nothing catches the exception: the
    interpreter reports both on standard error and exits with status 1. *)
Definition program (environ : gmap string (list Z)) : outcome :=
  match main environ (Streams [] []) with
  | (Returns _, st) => Outcome st 0
  | (Raises err, st) =>
      match print tty (Py.lit "Error: " ++ exn_str err) st with
      | (Returns _, st') => Outcome st' 1
      | (Raises err', st') =>
          Outcome (Streams (stdout st') (stderr st' ++ traceback tty err err')) 1
      end
  end.

End Program.

(** ** Vocabulary of the specification *)

(** The success output the specification describes: one line holding a JSON
    object with the two keys [algo] and [hash], in this order. *)
Definition success_line (a h : list Z) : list Z :=
  Py.lit "{" ++ Json.dquote ++ Py.lit "algo" ++ Json.dquote ++ Py.lit ": "
    ++ Json.dquote ++ a ++ Json.dquote ++ Py.lit ", "
    ++ Json.dquote ++ Py.lit "hash" ++ Json.dquote ++ Py.lit ": "
    ++ Json.dquote ++ h ++ Json.dquote ++ Py.lit "}" ++ [10].

(** The failure output: [Error: <message>] and a line terminator. *)
Definition error_line (msg : list Z) : list Z :=
  Py.lit "Error: " ++ msg ++ [10].

(** The digest function a supported algorithm name stands for. *)
Definition selected_digest (a : list Z) : list Z → list Z :=
  if bool_decide (a = Py.lit "sha256") then SHA256.digest else MD5.digest.

(** Hexadecimal characters of a digest, by algorithm name. *)
Definition hex_length (a : list Z) : nat :=
  if bool_decide (a = Py.lit "sha256") then 64%nat else 32%nat.

Definition hexs (bs : list Z) : list Z := flat_map (Py.hex_fixed 2) bs.

Definition is_lower_hex (c : Z) : bool :=
  ((48 <=? c) && (c <=? 57)) || ((97 <=? c) && (c <=? 102)).

Definition no_line_feed (s : list Z) : bool := forallb (fun c => negb (c =? 10)) s.

(** A text that is exactly one line: it ends in a line feed and holds no
    other. *)
Definition is_one_line (s : list Z) : bool :=
  match rev s with
  | c :: body => (c =? 10) && no_line_feed body
  | [] => false
  end.

Fixpoint starts_with (p s : list Z) : bool :=
  match p, s with
  | [], _ => true
  | x :: p', y :: s' => (x =? y) && starts_with p' s'
  | _ :: _, [] => false
  end.

(** [needle in hay] for two strings. *)
Fixpoint contains (needle hay : list Z) : bool :=
  starts_with needle hay ||
  match hay with
  | [] => false
  | _ :: hay' => contains needle hay'
  end.

(** The claim that every run ends in one of two one-line forms, as a
    predicate on outcomes. In the success form the two fields are plain
    string bodies (no quote, backslash or control character), so that the
    line is a JSON object with the keys [algo] and [hash] and no other. *)
Definition two_line_forms (o : outcome) : Prop :=
  stderr (out o) = [] ∧
  ((status o = 0 ∧ is_one_line (stdout (out o)) = true ∧
    ∃ a h, forallb Json.copied a = true ∧ forallb Json.copied h = true ∧
           stdout (out o) = success_line a h) ∨
   (status o = 1 ∧ is_one_line (stdout (out o)) = true ∧
    ∃ msg, stdout (out o) = error_line msg)).

(** The outcomes a run can have when every [print] goes through. *)
Definition data_error : outcome :=
  Outcome (Streams (error_line (Py.lit "A data argument must be provided")) []) 1.

Definition algo_error (a : list Z) : outcome :=
  Outcome (Streams (error_line (Py.lit "Unsupported hash algorithm: " ++ a
                                  ++ Py.lit " not in ['sha256', 'md5']")) []) 1.

Definition encode_error (d : list Z) (start stop : nat) : outcome :=
  Outcome (Streams (error_line
                      (exn_str (UnicodeEncodeError (Py.lit "utf-8") d start stop
                                  (Py.lit "surrogates not allowed")))) []) 1.

Definition success (a bs : list Z) : outcome :=
  Outcome (Streams (success_line a (hexs (selected_digest a bs))) []) 0.

(** A string [str.encode('utf-8')] accepts: none of its code points is a
    surrogate. *)
Definition encodable (s : list Z) : bool :=
  forallb (fun c => negb (Py.is_surrogate c)) s.

(** Code points of ASCII, the printable ones among them (space to tilde),
    and the values an element of [bytes] can take. *)
Definition is_ascii (c : Z) : bool := (0 <=? c) && (c <? 0x80).
Definition printable_ascii (c : Z) : bool := (0x20 <=? c) && (c <=? 0x7E).
Definition is_octet (b : Z) : bool := (0 <=? b) && (b <? 256).

(** A text the console can write: none of its code points is refused. *)
Definition writable (tty : console) (s : list Z) : bool :=
  forallb (fun c => negb (unwritable tty c)) s.

(** The run goes down the unsupported-algorithm path, the only one whose
    message repeats a value of the environment: DATA is set and not empty,
    and the value taken for ALGO is outside the supported list. *)
Definition echoes_algo (env : gmap string (list Z)) : bool :=
  match env !! "DATA"%string with
  | None | Some [] => false
  | Some _ =>
      bool_decide (os_getenv_default env "ALGO" (Py.lit "sha256")
                     ∉ SUPPORTED_HASH_ALGORITHMS)
  end.

(** What the unsupported-algorithm message would repeat fits on one line of
    the console: when the run goes down that path, the ALGO value holds no
    line feed and the console can write it. *)
Definition echo_fits (tty : console) (env : gmap string (list Z)) : bool :=
  implb (echoes_algo env)
        (no_line_feed (os_getenv_default env "ALGO" (Py.lit "sha256"))
         && writable tty (os_getenv_default env "ALGO" (Py.lit "sha256"))).

(** The outcome when the unsupported-algorithm message cannot be written:
    standard output stays empty and the two exceptions are reported on
    standard error. *)
Definition algo_crash (tty : console) (a : list Z) (start stop : nat) : outcome :=
  let msg := Py.lit "Unsupported hash algorithm: " ++ a
               ++ Py.lit " not in ['sha256', 'md5']" in
  Outcome (Streams []
             (traceback tty (ValueError msg)
                (UnicodeEncodeError (encoding tty) (Py.lit "Error: " ++ msg)
                   start stop (reason tty)))) 1.

(** An interpreter to run concrete inputs on: no code point beyond ASCII is
    taken as printable, and [hashlib] knows no further name. Neither choice
    is consulted on the inputs below. *)
Definition ascii_printable : Z → bool := λ _, false.
Definition no_other_hash : list Z → option (list Z → list Z) := λ _, None.

(** Two consoles: UTF-8 with the strict error handler, which refuses the
    surrogates, and ASCII, which refuses everything beyond ASCII. Of the
    report on standard error only the opening line and the closing line,
    which names the last exception, are kept here. *)
Definition short_traceback (e e' : exn) : list Z :=
  Py.lit "Traceback (most recent call last):" ++ [10]
    ++ Py.lit "UnicodeEncodeError: " ++ exn_str e' ++ [10].

Definition strict_utf8 : console :=
  Console (Py.lit "utf-8") Py.is_surrogate (Py.lit "surrogates not allowed")
          short_traceback.

Definition ascii_console : console :=
  Console (Py.lit "ascii") (λ _, true) (Py.lit "ordinal not in range(128)")
          short_traceback.

(** ** Strings, digits and lines *)

Lemma starts_with_app (p rest : list Z) : starts_with p (p ++ rest) = true.
Proof.
  induction p as [|x p IH]; simpl; [done|].
  by rewrite Z.eqb_refl, IH.
Qed.

Lemma contains_app (needle pre post : list Z) :
  contains needle (pre ++ needle ++ post) = true.
Proof.
  induction pre as [|x pre IH]; simpl.
  - destruct (needle ++ post) eqn:E; simpl;
      rewrite <- E, starts_with_app; done.
  - rewrite IH. apply orb_true_r.
Qed.

Lemma no_line_feed_app (s t : list Z) :
  no_line_feed (s ++ t) = no_line_feed s && no_line_feed t.
Proof. apply forallb_app. Qed.

Lemma is_one_line_body (body : list Z) :
  no_line_feed body = true → is_one_line (body ++ [10]) = true.
Proof.
  intros H. unfold is_one_line. rewrite rev_app_distr. simpl.
  unfold no_line_feed in *. rewrite forallb_forall in *.
  intros c Hc. apply H. by apply in_rev.
Qed.

Lemma no_line_feed_rev (s : list Z) : no_line_feed (rev s) = no_line_feed s.
Proof.
  induction s as [|c s IH]; [done|].
  simpl rev. rewrite no_line_feed_app, IH. simpl.
  by rewrite andb_true_r, andb_comm.
Qed.

Lemma is_one_line_app (body : list Z) :
  is_one_line (body ++ [10]) = no_line_feed body.
Proof.
  unfold is_one_line. rewrite rev_app_distr. simpl.
  apply no_line_feed_rev.
Qed.

Lemma hexdigit_lower (n : Z) : is_lower_hex (Py.hexdigit n) = true.
Proof.
  unfold Py.hexdigit.
  assert (H : 0 <= Z.land n 15 < 16).
  { change 15 with (Z.ones 4). rewrite Z.land_ones by lia.
    apply Z.mod_pos_bound. lia. }
  set (k := Z.land n 15) in *. clearbody k.
  assert (Hk : k = 0 ∨ k = 1 ∨ k = 2 ∨ k = 3 ∨ k = 4 ∨ k = 5 ∨ k = 6 ∨ k = 7 ∨
               k = 8 ∨ k = 9 ∨ k = 10 ∨ k = 11 ∨ k = 12 ∨ k = 13 ∨ k = 14 ∨
               k = 15) by lia.
  repeat (destruct Hk as [-> | Hk]; [reflexivity|]). by subst.
Qed.

Lemma hex_fixed_length (w : nat) (n : Z) : length (Py.hex_fixed w n) = w.
Proof. unfold Py.hex_fixed. by rewrite length_map, length_rev, length_seq. Qed.

Lemma hex_fixed_lower (w : nat) (n : Z) :
  forallb is_lower_hex (Py.hex_fixed w n) = true.
Proof.
  unfold Py.hex_fixed. rewrite forallb_forall. intros c Hc.
  apply in_map_iff in Hc as (i & <- & _). apply hexdigit_lower.
Qed.

Lemma hexs_length (bs : list Z) : length (hexs bs) = (2 * length bs)%nat.
Proof.
  induction bs as [|b bs IH]; [done|].
  change (hexs (b :: bs)) with (Py.hex_fixed 2 b ++ hexs bs).
  rewrite length_app, hex_fixed_length, IH. simpl. lia.
Qed.

Lemma hexs_lower (bs : list Z) : forallb is_lower_hex (hexs bs) = true.
Proof.
  induction bs as [|b bs IH]; [done|].
  change (hexs (b :: bs)) with (Py.hex_fixed 2 b ++ hexs bs).
  by rewrite forallb_app, hex_fixed_lower, IH.
Qed.

Lemma lower_hex_no_line_feed (s : list Z) :
  forallb is_lower_hex s = true → no_line_feed s = true.
Proof.
  unfold no_line_feed. rewrite !forallb_forall. intros H c Hc.
  specialize (H c Hc). unfold is_lower_hex in H.
  destruct (Z.eqb_spec c 10) as [-> | _]; [discriminate | done].
Qed.

Lemma decimal_aux_no_line_feed (fuel : nat) (n : Z) (acc : list Z) :
  no_line_feed acc = true → no_line_feed (Py.decimal_aux fuel n acc) = true.
Proof.
  revert n acc. induction fuel as [|fuel IH]; intros n acc Hacc; simpl; [done|].
  assert (Hd : no_line_feed ((48 + n mod 10) :: acc) = true).
  { simpl. rewrite Hacc, andb_true_r.
    pose proof (Z.mod_pos_bound n 10 ltac:(lia)).
    destruct (Z.eqb_spec (48 + n mod 10) 10); [lia | done]. }
  destruct (n / 10 =? 0); [done|]. by apply IH.
Qed.

Lemma decimal_no_line_feed (n : nat) : no_line_feed (Py.decimal n) = true.
Proof. by apply decimal_aux_no_line_feed. Qed.

Lemma char_escape_no_line_feed (c : Z) : no_line_feed (char_escape c) = true.
Proof.
  unfold char_escape.
  repeat case_match; rewrite no_line_feed_app;
    (rewrite (lower_hex_no_line_feed (Py.hex_fixed _ c)); [done|]);
    apply hex_fixed_lower.
Qed.

(** ** The digests have a fixed size *)

Lemma be_bytes_length (n : nat) (x : Z) : length (be_bytes n x) = n.
Proof. unfold be_bytes. by rewrite length_map, length_rev, length_seq. Qed.

Lemma le_bytes_length (n : nat) (x : Z) : length (le_bytes n x) = n.
Proof. unfold le_bytes. by rewrite length_map, length_seq. Qed.

Lemma sha256_digest_length (msg : list Z) : length (SHA256.digest msg) = 32%nat.
Proof.
  unfold SHA256.digest. cbv zeta.
  by rewrite !length_app, !be_bytes_length.
Qed.

Lemma md5_digest_length (msg : list Z) : length (MD5.digest msg) = 16%nat.
Proof.
  unfold MD5.digest. cbv zeta.
  by rewrite !length_app, !le_bytes_length.
Qed.

Lemma pad_zeros_fills (len : nat) :
  ((len + 1 + pad_zeros len + 8) mod 64 = 0)%nat.
Proof.
  unfold pad_zeros.
  pose proof (Z.mod_pos_bound (55 - Z.of_nat len) 64 ltac:(lia)) as Hb.
  apply Nat2Z.inj. rewrite Nat2Z.inj_mod, !Nat2Z.inj_add, Z2Nat.id by lia.
  change (Z.of_nat 1) with 1. change (Z.of_nat 8) with 8.
  change (Z.of_nat 64) with 64. change (Z.of_nat 0) with 0.
  Z.div_mod_to_equations. lia.
Qed.

Lemma sha256_pad_blocks (msg : list Z) : (length (SHA256.pad msg) mod 64 = 0)%nat.
Proof.
  unfold SHA256.pad.
  rewrite !length_app, repeat_length, be_bytes_length. simpl length.
  etransitivity; [|apply (pad_zeros_fills (length msg))]. f_equal. lia.
Qed.

Lemma md5_pad_blocks (msg : list Z) : (length (MD5.pad msg) mod 64 = 0)%nat.
Proof.
  unfold MD5.pad.
  rewrite !length_app, repeat_length, le_bytes_length. simpl length.
  etransitivity; [|apply (pad_zeros_fills (length msg))]. f_equal. lia.
Qed.

(** Published values: the empty message and abc (FIPS 180-4, RFC 1321), and
    messages of 55, 56, 64 and 119 octets, which pad to one block and to
    two. *)
Example sha256_vectors :
  hexs (SHA256.digest []) = Py.lit
    "e3b0c44298fc1c149afbf4c8996fb92427ae41e4649b934ca495991b7852b855" ∧
  hexs (SHA256.digest (Py.lit "abc")) = Py.lit
    "ba7816bf8f01cfea414140de5dae2223b00361a396177a9cb410ff61f20015ad" ∧
  hexs (SHA256.digest (repeat 97 55)) = Py.lit
    "9f4390f8d30c2dd92ec9f095b65e2b9ae9b0a925a5258e241c9f1e910f734318" ∧
  hexs (SHA256.digest (repeat 97 56)) = Py.lit
    "b35439a4ac6f0948b6d6f9e3c6af0f5f590ce20f1bde7090ef7970686ec6738a" ∧
  hexs (SHA256.digest (repeat 97 64)) = Py.lit
    "ffe054fe7ae0cb6dc65c3af9b61d5209f439851db43d0ba5997337df154668eb" ∧
  hexs (SHA256.digest (repeat 97 119)) = Py.lit
    "31eba51c313a5c08226adf18d4a359cfdfd8d2e816b13f4af952f7ea6584dcfb".
Proof. vm_compute. repeat split. Qed.

Example md5_vectors :
  hexs (MD5.digest []) = Py.lit "d41d8cd98f00b204e9800998ecf8427e" ∧
  hexs (MD5.digest (Py.lit "abc")) = Py.lit "900150983cd24fb0d6963f7d28e17f72" ∧
  hexs (MD5.digest (repeat 97 55)) = Py.lit "ef1772b6dff9a122358552954ad0df65" ∧
  hexs (MD5.digest (repeat 97 56)) = Py.lit "3b0c8ac703f828b04c6c197006d17218" ∧
  hexs (MD5.digest (repeat 97 64)) = Py.lit "014842d480b571495a4a0363793f7367" ∧
  hexs (MD5.digest (repeat 97 119)) = Py.lit "8a7bd0732ed6a28ce75f6dabc90e1613".
Proof. vm_compute. repeat split. Qed.

Lemma selected_digest_hex_length (a msg : list Z) :
  length (hexs (selected_digest a msg)) = hex_length a.
Proof.
  rewrite hexs_length. unfold selected_digest, hex_length.
  case_bool_decide; [by rewrite sha256_digest_length | by rewrite md5_digest_length].
Qed.

(** ** [json.dumps] on the result record *)

Lemma encode_str_copied (s : list Z) :
  forallb Json.copied s = true →
  Json.encode_str s = Json.dquote ++ s ++ Json.dquote.
Proof.
  intros H. unfold Json.encode_str. do 2 f_equal.
  induction s as [|c s IH]; [done|].
  simpl in H. apply andb_true_iff in H as [Hc Hs].
  simpl. rewrite Hc. simpl. by rewrite IH.
Qed.

Lemma lower_hex_copied (s : list Z) :
  forallb is_lower_hex s = true → forallb Json.copied s = true.
Proof.
  rewrite !forallb_forall. intros H c Hc. specialize (H c Hc).
  unfold is_lower_hex in H. unfold Json.copied. lia.
Qed.

Lemma supported_cases (a : list Z) :
  a ∈ SUPPORTED_HASH_ALGORITHMS ↔ a = Py.lit "sha256" ∨ a = Py.lit "md5".
Proof.
  unfold SUPPORTED_HASH_ALGORITHMS.
  rewrite !elem_of_cons, elem_of_nil. tauto.
Qed.

Lemma dumps_result (a h : list Z) :
  a ∈ SUPPORTED_HASH_ALGORITHMS → forallb is_lower_hex h = true →
  Json.dumps [(Py.lit "algo", a); (Py.lit "hash", h)] ++ [10] = success_line a h.
Proof.
  intros Ha Hh. unfold Json.dumps. cbn [List.map Py.join fst snd].
  rewrite (encode_str_copied h) by by apply lower_hex_copied.
  rewrite (encode_str_copied a)
    by (apply supported_cases in Ha as [-> | ->]; reflexivity).
  rewrite !(encode_str_copied (Py.lit _)) by reflexivity.
  unfold success_line. by rewrite <- !app_assoc.
Qed.

(** ** The UTF-8 encoder on well-formed text *)

Lemma scalar_not_surrogate (c : Z) :
  Py.is_scalar c = true → Py.is_surrogate c = false.
Proof.
  unfold Py.is_scalar. intros H. apply andb_true_iff in H as [_ H].
  by apply negb_true_iff.
Qed.

Lemma utf8_from_text (pos : nat) (s : list Z) :
  Py.is_text s = true → Py.utf8_from pos s = inr (flat_map Py.utf8_char s).
Proof.
  revert pos. induction s as [|c s IH]; intros pos H; [done|].
  simpl in H. apply andb_true_iff in H as [Hc Hs].
  simpl. by rewrite (scalar_not_surrogate c Hc), (IH (S pos) Hs).
Qed.

Lemma utf8_text (s : list Z) :
  Py.is_text s = true → Py.utf8 s = inr (flat_map Py.utf8_char s).
Proof. apply utf8_from_text. Qed.

(** *** What the encoder writes decodes back to the text *)

Lemma lor_high_low (a r k : Z) :
  0 <= k → 0 <= r < 2 ^ k → Z.lor (a * 2 ^ k) r = a * 2 ^ k + r.
Proof.
  intros Hk Hr.
  rewrite <- Z.lxor_lor, <- Z.add_nocarry_lxor; try done;
  (apply Z.bits_inj'; intros n Hn; rewrite Z.land_spec, Z.bits_0;
   destruct (Z.lt_ge_cases n k) as [Hlt | Hge];
   [ rewrite Z.mul_pow2_bits_low by lia; done
   | rewrite andb_comm; destruct (Z.eq_dec r 0) as [-> | Hr0];
     [ by rewrite Z.bits_0
     | rewrite (Z.bits_above_log2 r n); [done | lia |];
       apply Z.log2_lt_pow2; [lia|];
       eapply Z.lt_le_trans; [apply Hr|]; apply Z.pow_le_mono_r; lia ] ]).
Qed.

Ltac zbool :=
  unfold Py.is_cont, Py.is_surrogate;
  rewrite ?andb_true_iff, ?andb_false_iff, ?negb_true_iff, ?negb_false_iff,
    ?Z.leb_le, ?Z.ltb_lt, ?Z.leb_gt, ?Z.ltb_ge;
  lia.

Ltac decide_test b v := replace b with v by (symmetry; zbool).

Lemma low_bits (x k : Z) : 0 <= k → Z.land x (2 ^ k - 1) = x mod 2 ^ k.
Proof.
  intros Hk. rewrite <- Z.land_ones by done. by rewrite Z.ones_equiv, Z.sub_1_r.
Qed.

Lemma marked (top x k : Z) :
  0 <= k → Z.lor (top * 2 ^ k) (Z.land x (2 ^ k - 1)) = top * 2 ^ k + x mod 2 ^ k.
Proof.
  intros Hk. rewrite low_bits by done.
  apply lor_high_low; [done|]. apply Z.mod_pos_bound. lia.
Qed.

Lemma join6_sum (hi lo : Z) : Py.join6 hi lo = hi * 64 + lo mod 64.
Proof.
  unfold Py.join6. rewrite Z.shiftl_mul_pow2 by lia.
  apply (marked hi lo 6). lia.
Qed.

Lemma decode1 (b : Z) (rest : list Z) :
  0 <= b < 0x80 → Py.utf8_decode (b :: rest) = cons b <$> Py.utf8_decode rest.
Proof.
  intros H. cbn [Py.utf8_decode].
  by decide_test ((0 <=? b) && (b <? 0x80)) true.
Qed.

Lemma decode2 (b0 b1 : Z) (rest : list Z) :
  0xC0 <= b0 < 0xE0 → 0x80 <= b1 <= 0xBF →
  0x80 <= Py.join6 (Z.land b0 0x1F) b1 →
  Py.utf8_decode (b0 :: b1 :: rest)
  = cons (Py.join6 (Z.land b0 0x1F) b1) <$> Py.utf8_decode rest.
Proof.
  intros H0 H1 Hc. cbn [Py.utf8_decode]. cbv zeta.
  decide_test ((0 <=? b0) && (b0 <? 0x80)) false.
  decide_test ((0xC0 <=? b0) && (b0 <? 0xE0)) true.
  by decide_test (Py.is_cont b1 && (0x80 <=? Py.join6 (Z.land b0 0x1F) b1)) true.
Qed.

Lemma decode3 (b0 b1 b2 : Z) (rest : list Z) :
  0xE0 <= b0 < 0xF0 → 0x80 <= b1 <= 0xBF → 0x80 <= b2 <= 0xBF →
  let c := Py.join6 (Py.join6 (Z.land b0 0x0F) b1) b2 in
  0x800 <= c → ¬ (0xD800 <= c <= 0xDFFF) →
  Py.utf8_decode (b0 :: b1 :: b2 :: rest) = cons c <$> Py.utf8_decode rest.
Proof.
  intros H0 H1 H2 c Hc Hs. cbn [Py.utf8_decode]. cbv zeta. fold c.
  decide_test ((0 <=? b0) && (b0 <? 0x80)) false.
  decide_test ((0xC0 <=? b0) && (b0 <? 0xE0)) false.
  decide_test ((0xE0 <=? b0) && (b0 <? 0xF0)) true.
  by decide_test (Py.is_cont b1 && Py.is_cont b2 && (0x800 <=? c)
                  && negb (Py.is_surrogate c)) true.
Qed.

Lemma decode4 (b0 b1 b2 b3 : Z) (rest : list Z) :
  0xF0 <= b0 < 0xF8 → 0x80 <= b1 <= 0xBF → 0x80 <= b2 <= 0xBF →
  0x80 <= b3 <= 0xBF →
  let c := Py.join6 (Py.join6 (Py.join6 (Z.land b0 0x07) b1) b2) b3 in
  0x10000 <= c <= 0x10FFFF →
  Py.utf8_decode (b0 :: b1 :: b2 :: b3 :: rest) = cons c <$> Py.utf8_decode rest.
Proof.
  intros H0 H1 H2 H3 c Hc. cbn [Py.utf8_decode]. cbv zeta. fold c.
  decide_test ((0 <=? b0) && (b0 <? 0x80)) false.
  decide_test ((0xC0 <=? b0) && (b0 <? 0xE0)) false.
  decide_test ((0xE0 <=? b0) && (b0 <? 0xF0)) false.
  decide_test ((0xF0 <=? b0) && (b0 <? 0xF8)) true.
  by decide_test (Py.is_cont b1 && Py.is_cont b2 && Py.is_cont b3
                  && (0x10000 <=? c) && (c <=? 0x10FFFF)) true.
Qed.

Lemma scalar_range (c : Z) :
  Py.is_scalar c = true → 0 <= c <= 0x10FFFF ∧ ¬ (0xD800 <= c <= 0xDFFF).
Proof. unfold Py.is_scalar. zbool. Qed.

Lemma ascii_octet (x : Z) : Z.land x 0x7F = x mod 128.
Proof. apply (low_bits x 7). lia. Qed.

Lemma cont_octet (x : Z) : Z.lor 0x80 (Z.land x 0x3F) = 128 + x mod 64.
Proof. apply (marked 2 x 6). lia. Qed.

Lemma lead2_octet (x : Z) : Z.lor 0xC0 (Z.land x 0x1F) = 192 + x mod 32.
Proof. apply (marked 6 x 5). lia. Qed.

Lemma lead3_octet (x : Z) : Z.lor 0xE0 (Z.land x 0x0F) = 224 + x mod 16.
Proof. apply (marked 14 x 4). lia. Qed.

Lemma lead4_octet (x : Z) : Z.lor 0xF0 (Z.land x 0x07) = 240 + x mod 8.
Proof. apply (marked 30 x 3). lia. Qed.

Lemma lead2_payload (b : Z) : Z.land b 0x1F = b mod 32.
Proof. apply (low_bits b 5). lia. Qed.

Lemma lead3_payload (b : Z) : Z.land b 0x0F = b mod 16.
Proof. apply (low_bits b 4). lia. Qed.

Lemma lead4_payload (b : Z) : Z.land b 0x07 = b mod 8.
Proof. apply (low_bits b 3). lia. Qed.

Lemma shiftr_6 (c : Z) : Z.shiftr c 6 = c / 64.
Proof. by rewrite Z.shiftr_div_pow2. Qed.

Lemma shiftr_12 (c : Z) : Z.shiftr c 12 = c / 4096.
Proof. by rewrite Z.shiftr_div_pow2. Qed.

Lemma shiftr_18 (c : Z) : Z.shiftr c 18 = c / 262144.
Proof. by rewrite Z.shiftr_div_pow2. Qed.

Ltac octets :=
  rewrite ?shiftr_6, ?shiftr_12, ?shiftr_18, ?ascii_octet, ?cont_octet,
    ?lead2_octet, ?lead3_octet, ?lead4_octet.

Ltac payload :=
  rewrite ?join6_sum, ?lead2_payload, ?lead3_payload, ?lead4_payload;
  Z.div_mod_to_equations; lia.

Lemma utf8_char_decode (c : Z) (rest : list Z) :
  Py.is_scalar c = true →
  Py.utf8_decode (Py.utf8_char c ++ rest) = cons c <$> Py.utf8_decode rest.
Proof.
  intros [Hr Hs]%scalar_range. unfold Py.utf8_char.
  destruct (Z.ltb_spec c 0x80) as [H1 | H1];
    [|destruct (Z.ltb_spec c 0x800) as [H2 | H2];
      [|destruct (Z.ltb_spec c 0x10000) as [H3 | H3]]];
    cbn [app]; octets.
  - rewrite Z.mod_small by lia. apply decode1. lia.
  - rewrite decode2; [do 2 f_equal | ..]; payload.
  - rewrite decode3; [do 2 f_equal | ..]; payload.
  - rewrite decode4; [do 2 f_equal | ..]; payload.
Qed.

Lemma utf8_decode_encode (s : list Z) :
  Py.is_text s = true → Py.utf8_decode (flat_map Py.utf8_char s) = Some s.
Proof.
  induction s as [|c s IH]; [done|].
  intros [Hc Hs]%andb_true_iff. cbn [flat_map].
  by rewrite utf8_char_decode, IH.
Qed.

Lemma encode_error_no_line_feed (s : list Z) (start stop : nat) :
  no_line_feed
    (exn_str (UnicodeEncodeError (Py.lit "utf-8") s start stop
                                 (Py.lit "surrogates not allowed"))) = true.
Proof.
  unfold exn_str. case_bool_decide;
    rewrite !no_line_feed_app, ?char_escape_no_line_feed,
      !decimal_no_line_feed; reflexivity.
Qed.

(** ** What [print] can write *)

Lemma lower_hex_printable (s : list Z) :
  forallb is_lower_hex s = true → forallb printable_ascii s = true.
Proof.
  rewrite !forallb_forall. intros H c Hc. specialize (H c Hc).
  unfold is_lower_hex in H. unfold printable_ascii. lia.
Qed.

Lemma decimal_aux_printable (fuel : nat) (n : Z) (acc : list Z) :
  forallb printable_ascii acc = true →
  forallb printable_ascii (Py.decimal_aux fuel n acc) = true.
Proof.
  revert n acc. induction fuel as [|fuel IH]; intros n acc Hacc; simpl; [done|].
  assert (Hd : forallb printable_ascii ((48 + n mod 10) :: acc) = true).
  { simpl. rewrite Hacc, andb_true_r.
    pose proof (Z.mod_pos_bound n 10 ltac:(lia)).
    unfold printable_ascii. lia. }
  destruct (n / 10 =? 0); [done|]. by apply IH.
Qed.

Lemma char_escape_printable (c : Z) :
  forallb printable_ascii (char_escape c) = true.
Proof.
  unfold char_escape.
  repeat case_match; rewrite forallb_app;
    (rewrite (lower_hex_printable (Py.hex_fixed _ c)); [done|]);
    apply hex_fixed_lower.
Qed.

Lemma encode_error_printable (s : list Z) (start stop : nat) :
  forallb printable_ascii
    (exn_str (UnicodeEncodeError (Py.lit "utf-8") s start stop
                                 (Py.lit "surrogates not allowed"))) = true.
Proof.
  unfold exn_str, Py.decimal. case_bool_decide;
    rewrite !forallb_app, ?char_escape_printable,
      !decimal_aux_printable by done; reflexivity.
Qed.

Lemma writable_app (tty : console) (s t : list Z) :
  writable tty (s ++ t) = writable tty s && writable tty t.
Proof. apply forallb_app. Qed.

Lemma printable_is_ascii (s : list Z) :
  forallb printable_ascii s = true → forallb is_ascii s = true.
Proof.
  rewrite !forallb_forall. intros H c Hc. specialize (H c Hc).
  unfold printable_ascii in H. unfold is_ascii. lia.
Qed.

Lemma ascii_writable (tty : console) (s : list Z) :
  forallb is_ascii s = true → writable tty s = true.
Proof.
  unfold writable. rewrite !forallb_forall. intros H c Hc.
  specialize (H c Hc). unfold is_ascii in H. unfold unwritable.
  destruct (Z.leb_spec 0x80 c); [lia | done].
Qed.

Lemma printable_writable (tty : console) (s : list Z) :
  forallb printable_ascii s = true → writable tty s = true.
Proof. intros H. by apply ascii_writable, printable_is_ascii. Qed.

Lemma first_unwritable_none (tty : console) (pos : nat) (s : list Z) :
  writable tty s = true → first_unwritable tty pos s = None.
Proof.
  revert pos. induction s as [|c s IH]; intros pos H; [done|].
  simpl in H. apply andb_true_iff in H as [Hc Hs].
  apply negb_true_iff in Hc. simpl. rewrite Hc. by apply IH.
Qed.

Lemma first_unwritable_some (tty : console) (pos : nat) (s : list Z) :
  writable tty s = false → ∃ start stop, first_unwritable tty pos s = Some (start, stop).
Proof.
  revert pos. induction s as [|c s IH]; intros pos H; [discriminate H|].
  simpl in H. simpl. destruct (unwritable tty c); [eauto|].
  by apply IH.
Qed.

Lemma print_writable (tty : console) (s : list Z) (st : streams) :
  writable tty s = true →
  print tty s st = (Returns (), Streams (stdout st ++ s ++ [10]) (stderr st)).
Proof. intros H. unfold print. by rewrite first_unwritable_none. Qed.

Lemma print_unwritable (tty : console) (s : list Z) (st : streams) :
  writable tty s = false →
  ∃ start stop,
    print tty s st
    = (Raises (UnicodeEncodeError (encoding tty) s start stop (reason tty)), st).
Proof.
  intros H. destruct (first_unwritable_some tty 0 s H) as (i & j & E).
  exists i, j. unfold print. by rewrite E.
Qed.

(** The unsupported-algorithm line can be written exactly when the ALGO
    value can. *)
Lemma algo_line_writable (tty : console) (a : list Z) :
  writable tty (Py.lit "Error: " ++ Py.lit "Unsupported hash algorithm: " ++ a
                  ++ Py.lit " not in ['sha256', 'md5']")
  = writable tty a.
Proof.
  rewrite !writable_app.
  rewrite (printable_writable tty (Py.lit "Error: ")) by reflexivity.
  rewrite (printable_writable tty (Py.lit "Unsupported hash algorithm: "))
    by reflexivity.
  rewrite (printable_writable tty (Py.lit " not in ['sha256', 'md5']"))
    by reflexivity.
  by rewrite andb_true_r.
Qed.

Lemma supported_printable (a : list Z) :
  a ∈ SUPPORTED_HASH_ALGORITHMS → forallb printable_ascii a = true.
Proof. intros [-> | ->]%supported_cases; reflexivity. Qed.

(** ** The five ways a run can go *)

Section Properties.

Variable isprintable : Z → bool.
Variable hashlib_other : list Z → option (list Z → list Z).
Variable tty : console.

Lemma str_list_supported :
  str_list isprintable SUPPORTED_HASH_ALGORITHMS = Py.lit "['sha256', 'md5']".
Proof. reflexivity. Qed.

Lemma hashlib_new_supported (a : list Z) (st : streams) :
  a ∈ SUPPORTED_HASH_ALGORITHMS →
  hashlib_new hashlib_other a st = (Returns (Hash a (selected_digest a) []), st).
Proof.
  intros [-> | ->]%supported_cases; reflexivity.
Qed.

Lemma program_no_data (env : gmap string (list Z)) :
  env !! "DATA"%string = None ∨ env !! "DATA"%string = Some [] →
  program isprintable hashlib_other tty env = data_error.
Proof.
  intros H. unfold program, main, os_getenv.
  destruct H as [-> | ->]; unfold raise;
    by rewrite print_writable by (by apply printable_writable).
Qed.

Lemma main_unsupported (env : gmap string (list Z)) (d a : list Z)
    (st : streams) :
  env !! "DATA"%string = Some d → d ≠ [] →
  os_getenv_default env "ALGO" (Py.lit "sha256") = a →
  a ∉ SUPPORTED_HASH_ALGORITHMS →
  main isprintable hashlib_other tty env st
  = (Raises (ValueError (Py.lit "Unsupported hash algorithm: " ++ a
                           ++ Py.lit " not in ['sha256', 'md5']")), st).
Proof.
  intros Hd Hne Ha Hns. unfold main, os_getenv.
  rewrite Hd, Ha. destruct d as [|c d]; [done|].
  rewrite bool_decide_eq_true_2 by done.
  unfold raise. rewrite str_list_supported.
  change (Py.lit " not in ['sha256', 'md5']")
    with (Py.lit " not in " ++ Py.lit "['sha256', 'md5']").
  reflexivity.
Qed.

Lemma program_unsupported (env : gmap string (list Z)) (d a : list Z) :
  env !! "DATA"%string = Some d → d ≠ [] →
  os_getenv_default env "ALGO" (Py.lit "sha256") = a →
  a ∉ SUPPORTED_HASH_ALGORITHMS →
  writable tty a = true →
  program isprintable hashlib_other tty env = algo_error a.
Proof.
  intros Hd Hne Ha Hns Hw. unfold program.
  rewrite (main_unsupported env d a) by done. cbn [exn_str].
  by rewrite print_writable by (by rewrite algo_line_writable).
Qed.

Lemma program_unsupported_unwritable
    (env : gmap string (list Z)) (d a : list Z) :
  env !! "DATA"%string = Some d → d ≠ [] →
  os_getenv_default env "ALGO" (Py.lit "sha256") = a →
  a ∉ SUPPORTED_HASH_ALGORITHMS →
  writable tty a = false →
  ∃ start stop,
    program isprintable hashlib_other tty env = algo_crash tty a start stop.
Proof.
  intros Hd Hne Ha Hns Hw. unfold program.
  rewrite (main_unsupported env d a) by done. cbn [exn_str].
  destruct (print_unwritable tty
              (Py.lit "Error: " ++ Py.lit "Unsupported hash algorithm: " ++ a
                 ++ Py.lit " not in ['sha256', 'md5']") (Streams [] []))
    as (i & j & E); [by rewrite algo_line_writable|].
  exists i, j. by rewrite E.
Qed.

Lemma main_encode_error (env : gmap string (list Z)) (d a : list Z)
    (start stop : nat) (st : streams) :
  env !! "DATA"%string = Some d → d ≠ [] →
  os_getenv_default env "ALGO" (Py.lit "sha256") = a →
  a ∈ SUPPORTED_HASH_ALGORITHMS →
  Py.utf8 d = inl (start, stop) →
  main isprintable hashlib_other tty env st
  = (Raises (UnicodeEncodeError (Py.lit "utf-8") d start stop
               (Py.lit "surrogates not allowed")), st).
Proof.
  intros Hd Hne Ha Hs He. unfold main, os_getenv.
  rewrite Hd, Ha. destruct d as [|c d]; [done|].
  rewrite bool_decide_eq_false_2 by (intros Hn; exact (Hn Hs)).
  unfold mbind, M_bind. rewrite hashlib_new_supported by done.
  unfold str_encode_utf8. by rewrite He.
Qed.

Lemma program_encode_error (env : gmap string (list Z)) (d a : list Z)
    (start stop : nat) :
  env !! "DATA"%string = Some d → d ≠ [] →
  os_getenv_default env "ALGO" (Py.lit "sha256") = a →
  a ∈ SUPPORTED_HASH_ALGORITHMS →
  Py.utf8 d = inl (start, stop) →
  program isprintable hashlib_other tty env = encode_error d start stop.
Proof.
  intros Hd Hne Ha Hs He. unfold program.
  rewrite (main_encode_error env d a start stop) by done.
  rewrite print_writable; [reflexivity|].
  rewrite writable_app.
  rewrite (printable_writable tty (Py.lit "Error: ")) by reflexivity.
  apply printable_writable, encode_error_printable.
Qed.

Lemma main_success (env : gmap string (list Z)) (d a bs : list Z)
    (st : streams) :
  env !! "DATA"%string = Some d → d ≠ [] →
  os_getenv_default env "ALGO" (Py.lit "sha256") = a →
  a ∈ SUPPORTED_HASH_ALGORITHMS →
  Py.utf8 d = inr bs →
  main isprintable hashlib_other tty env st
  = (Returns (),
     Streams (stdout st ++ success_line a (hexs (selected_digest a bs)))
             (stderr st)).
Proof.
  intros Hd Hne Ha Hs He. unfold main, os_getenv.
  rewrite Hd, Ha. destruct d as [|c d]; [done|].
  rewrite bool_decide_eq_false_2 by (intros Hn; exact (Hn Hs)).
  unfold mbind, M_bind. rewrite hashlib_new_supported by done.
  unfold str_encode_utf8. rewrite He.
  unfold mret, M_ret, HASH_update, HASH_hexdigest.
  cbn [algorithm fed name app].
  fold (hexs (selected_digest a bs)).
  pose proof (hexs_lower (selected_digest a bs)) as Hh.
  pose proof (dumps_result a _ Hs Hh) as Hj.
  rewrite print_writable.
  - by rewrite Hj.
  - assert (Hw : writable tty (success_line a (hexs (selected_digest a bs)))
                 = true).
    { apply ascii_writable. unfold success_line.
      rewrite !forallb_app,
        (printable_is_ascii _ (lower_hex_printable _ Hh)),
        (printable_is_ascii a (supported_printable a Hs)). reflexivity. }
    rewrite <- Hj, writable_app in Hw. by apply andb_true_iff in Hw as [-> _].
Qed.

Lemma program_success (env : gmap string (list Z)) (d a bs : list Z) :
  env !! "DATA"%string = Some d → d ≠ [] →
  os_getenv_default env "ALGO" (Py.lit "sha256") = a →
  a ∈ SUPPORTED_HASH_ALGORITHMS →
  Py.utf8 d = inr bs →
  program isprintable hashlib_other tty env = success a bs.
Proof.
  intros Hd Hne Ha Hs He. unfold program.
  by rewrite (main_success env d a bs).
Qed.

Lemma echoes_algo_true (env : gmap string (list Z)) (d : list Z) :
  env !! "DATA"%string = Some d → d ≠ [] →
  os_getenv_default env "ALGO" (Py.lit "sha256") ∉ SUPPORTED_HASH_ALGORITHMS →
  echoes_algo env = true.
Proof.
  intros Hd Hne Hns. unfold echoes_algo. rewrite Hd.
  destruct d; [done|]. by apply bool_decide_eq_true_2.
Qed.

Lemma echoes_algo_supported (env : gmap string (list Z)) :
  os_getenv_default env "ALGO" (Py.lit "sha256") ∈ SUPPORTED_HASH_ALGORITHMS →
  echoes_algo env = false.
Proof.
  intros Hs. unfold echoes_algo.
  destruct (env !! "DATA"%string) as [[|c d]|]; try done.
  apply bool_decide_eq_false_2. intros Hn. exact (Hn Hs).
Qed.

Lemma echoes_algo_no_data (env : gmap string (list Z)) :
  env !! "DATA"%string = None ∨ env !! "DATA"%string = Some [] →
  echoes_algo env = false.
Proof. unfold echoes_algo. by intros [-> | ->]. Qed.

(** Every run is one of the five. *)
Lemma program_cases (env : gmap string (list Z)) :
  let a := os_getenv_default env "ALGO" (Py.lit "sha256") in
  (echoes_algo env = false ∧
   program isprintable hashlib_other tty env = data_error) ∨
  (echoes_algo env = true ∧ writable tty a = true ∧
   program isprintable hashlib_other tty env = algo_error a) ∨
  (echoes_algo env = true ∧ writable tty a = false ∧
   ∃ start stop,
     program isprintable hashlib_other tty env = algo_crash tty a start stop) ∨
  (echoes_algo env = false ∧ a ∈ SUPPORTED_HASH_ALGORITHMS ∧
     ∃ d start stop, env !! "DATA"%string = Some d ∧
                     program isprintable hashlib_other tty env
                     = encode_error d start stop) ∨
  (echoes_algo env = false ∧ a ∈ SUPPORTED_HASH_ALGORITHMS ∧
     ∃ d bs, env !! "DATA"%string = Some d ∧ Py.utf8 d = inr bs ∧
             program isprintable hashlib_other tty env = success a bs).
Proof.
  intros a.
  destruct (env !! "DATA"%string) as [d|] eqn:Hd;
    [|left; split; [apply echoes_algo_no_data | apply program_no_data];
      by left].
  destruct (decide (d = [])) as [-> | Hne];
    [left; split; [apply echoes_algo_no_data | apply program_no_data];
     by right|].
  destruct (decide (a ∈ SUPPORTED_HASH_ALGORITHMS)) as [Hs | Hs].
  - pose proof (echoes_algo_supported env Hs) as Hf.
    destruct (Py.utf8 d) as [[start stop] | bs] eqn:He.
    + do 3 right; left. split; [done|]. split; [done|].
      exists d, start, stop. split; [done|]. by eapply program_encode_error.
    + do 4 right. split; [done|]. split; [done|]. exists d, bs.
      repeat split; try done. by eapply program_success.
  - pose proof (echoes_algo_true env d Hd Hne Hs) as Ht.
    destruct (writable tty a) eqn:Hw.
    + right; left. repeat split; try done. by eapply program_unsupported.
    + do 2 right; left. repeat split; try done.
      by eapply program_unsupported_unwritable.
Qed.

(** ** The claims of the specification *)

Lemma hello_sha256 :
  hexs (selected_digest (Py.lit "sha256") (Py.lit "hello"))
  = Py.lit "2cf24dba5fb0a30e26e83b2ac5b9e29e1b161e5c1fa7425e73043362938b9824".
Proof. vm_compute. reflexivity. Qed.

Lemma hello_md5 :
  hexs (selected_digest (Py.lit "md5") (Py.lit "hello"))
  = Py.lit "5d41402abc4b2a76b9719d911017c592".
Proof. vm_compute. reflexivity. Qed.

(** C1: with DATA set to hello, a run with ALGO unset prints exactly the
    JSON line for sha256 with hash 2cf24dba...9824, and a run with ALGO set
    to md5 prints exactly the JSON line for md5 with hash 5d41402a...c592;
    both write nothing else and exit with status 0. *)
Theorem hello_scenarios (env : gmap string (list Z)) :
  env !! "DATA"%string = Some (Py.lit "hello") →
  (env !! "ALGO"%string = None →
   program isprintable hashlib_other tty env =
     Outcome (Streams (success_line (Py.lit "sha256")
        (Py.lit "2cf24dba5fb0a30e26e83b2ac5b9e29e1b161e5c1fa7425e73043362938b9824"))
        []) 0) ∧
  (env !! "ALGO"%string = Some (Py.lit "md5") →
   program isprintable hashlib_other tty env =
     Outcome (Streams (success_line (Py.lit "md5")
        (Py.lit "5d41402abc4b2a76b9719d911017c592")) []) 0).
Proof.
  intros Hd. split; intros Ha.
  - rewrite <- hello_sha256.
    apply (program_success env (Py.lit "hello")); try done.
    + unfold os_getenv_default. by rewrite Ha.
    + apply supported_cases. by left.
  - rewrite <- hello_md5.
    apply (program_success env (Py.lit "hello")); try done.
    + unfold os_getenv_default. by rewrite Ha.
    + apply supported_cases. by right.
Qed.

(** C2: for every non-empty well-formed text payload, non-ASCII characters
    included, and every supported algorithm, the encoder yields octets that
    are the UTF-8 form of the payload (the standard decoder reads the payload
    back from them), and the hash field of the printed result is the
    hexadecimal form of the selected digest of exactly these octets. *)
Theorem digest_over_utf8 (env : gmap string (list Z)) (d a : list Z) :
  env !! "DATA"%string = Some d → d ≠ [] → Py.is_text d = true →
  os_getenv_default env "ALGO" (Py.lit "sha256") = a →
  a ∈ SUPPORTED_HASH_ALGORITHMS →
  Py.utf8 d = inr (flat_map Py.utf8_char d) ∧
  Py.utf8_decode (flat_map Py.utf8_char d) = Some d ∧
  program isprintable hashlib_other tty env =
    Outcome (Streams (success_line a
               (hexs (selected_digest a (flat_map Py.utf8_char d)))) []) 0.
Proof.
  intros Hd Hne Ht Ha Hs.
  pose proof (utf8_text d Ht) as He.
  split; [done|]. split; [by apply utf8_decode_encode|].
  by apply (program_success env d).
Qed.

(** C3: a run with ALGO unset has the same output and exit status as the
    run on the same environment with ALGO set to sha256. *)
Theorem default_is_sha256 (env : gmap string (list Z)) :
  env !! "ALGO"%string = None →
  program isprintable hashlib_other tty env
  = program isprintable hashlib_other tty
      (<["ALGO"%string := Py.lit "sha256"]> env).
Proof.
  intros Ha. unfold program, main, os_getenv, os_getenv_default.
  rewrite lookup_insert_ne by done.
  by rewrite lookup_insert_eq, Ha.
Qed.

(** C4, amended: when DATA is non-empty and ALGO is set to a value outside
    the supported list that the console can write, the run prints an Error
    line whose message contains the offending value and the names sha256 and
    md5, and exits with status 1, which is not zero. *)
Theorem unsupported_algorithm_reported
    (env : gmap string (list Z)) (d a : list Z) :
  env !! "DATA"%string = Some d → d ≠ [] →
  env !! "ALGO"%string = Some a → a ∉ SUPPORTED_HASH_ALGORITHMS →
  writable tty a = true →
  ∃ msg, program isprintable hashlib_other tty env
         = Outcome (Streams (error_line msg) []) 1 ∧
         status (program isprintable hashlib_other tty env) ≠ 0 ∧
         contains a msg = true ∧
         contains (Py.lit "sha256") msg = true ∧
         contains (Py.lit "md5") msg = true.
Proof.
  intros Hd Hne Ha Hns Hw.
  assert (Hr : program isprintable hashlib_other tty env = algo_error a).
  { apply (program_unsupported env d); try done.
    unfold os_getenv_default. by rewrite Ha. }
  eexists. split; [exact Hr|]. rewrite Hr. split; [done|].
  split; [apply contains_app|].
  split.
  - change (Py.lit " not in ['sha256', 'md5']")
      with (Py.lit " not in ['" ++ Py.lit "sha256" ++ Py.lit "', 'md5']").
    rewrite !app_assoc, <- (app_assoc _ (Py.lit "sha256")).
    apply contains_app.
  - change (Py.lit " not in ['sha256', 'md5']")
      with (Py.lit " not in ['sha256', '" ++ Py.lit "md5" ++ Py.lit "']").
    rewrite !app_assoc, <- (app_assoc _ (Py.lit "md5")).
    apply contains_app.
Qed.

(** C5: when DATA is absent or is the empty string, the run ends in the
    handled way: it prints the line Error: A data argument must be provided
    to standard output, writes nothing to standard error, prints no JSON
    success line, and exits with status 1. *)
Theorem missing_data_reported (env : gmap string (list Z)) :
  env !! "DATA"%string = None ∨ env !! "DATA"%string = Some [] →
  program isprintable hashlib_other tty env
  = Outcome (Streams (error_line
               (Py.lit "A data argument must be provided")) []) 1 ∧
  ∀ a h, stdout (out (program isprintable hashlib_other tty env))
         ≠ success_line a h.
Proof.
  intros H. rewrite (program_no_data env H). split; [done|].
  intros a h. discriminate.
Qed.

Lemma success_line_one_line (a h : list Z) :
  no_line_feed a = true → no_line_feed h = true →
  is_one_line (success_line a h) = true.
Proof.
  intros Ha Hh. unfold success_line. rewrite !app_assoc.
  apply is_one_line_body. rewrite !no_line_feed_app, Ha, Hh. reflexivity.
Qed.

Lemma error_line_one_line (msg : list Z) :
  no_line_feed msg = true → is_one_line (error_line msg) = true.
Proof.
  intros Hm. unfold error_line. rewrite app_assoc.
  apply is_one_line_body. by rewrite no_line_feed_app, Hm.
Qed.

Lemma supported_no_line_feed (a : list Z) :
  a ∈ SUPPORTED_HASH_ALGORITHMS → no_line_feed a = true.
Proof. intros [-> | ->]%supported_cases; reflexivity. Qed.

Lemma algo_line_one_line (a : list Z) :
  is_one_line (error_line (Py.lit "Unsupported hash algorithm: " ++ a
                             ++ Py.lit " not in ['sha256', 'md5']"))
  = no_line_feed a.
Proof.
  unfold error_line.
  rewrite app_assoc, is_one_line_app, !no_line_feed_app.
  change (no_line_feed (Py.lit "Error: ")) with true.
  change (no_line_feed (Py.lit "Unsupported hash algorithm: ")) with true.
  change (no_line_feed (Py.lit " not in ['sha256', 'md5']")) with true.
  by rewrite andb_true_r.
Qed.

(** X10: every run ends in one of three forms. Status 0 with the JSON line
    on standard output; status 1 with [Error: <message>] and a line
    terminator on standard output; in both nothing is on standard error. Or
    status 1 with nothing on standard output and the interpreter's report on
    standard error: this happens only on the unsupported-algorithm path with
    an ALGO value the console cannot write. *)
Theorem three_forms (env : gmap string (list Z)) :
  (status (program isprintable hashlib_other tty env) = 0 ∧
   stderr (out (program isprintable hashlib_other tty env)) = [] ∧
   ∃ a h, stdout (out (program isprintable hashlib_other tty env))
          = success_line a h) ∨
  (status (program isprintable hashlib_other tty env) = 1 ∧
   stderr (out (program isprintable hashlib_other tty env)) = [] ∧
   ∃ msg, stdout (out (program isprintable hashlib_other tty env))
          = error_line msg) ∨
  (status (program isprintable hashlib_other tty env) = 1 ∧
   stdout (out (program isprintable hashlib_other tty env)) = [] ∧
   echoes_algo env = true ∧
   writable tty (os_getenv_default env "ALGO" (Py.lit "sha256")) = false ∧
   ∃ e e', stderr (out (program isprintable hashlib_other tty env))
           = traceback tty e e').
Proof.
  destruct (program_cases env)
    as [[_ ->] | [(_ & _ & ->) | [(He & Hw & i & j & ->)
         | [(_ & _ & d & i & j & _ & ->) | (_ & _ & d & bs & _ & _ & ->)]]]].
  - right; left. repeat split. by eexists.
  - right; left. repeat split. by eexists.
  - right; right. repeat split; try done. by eexists _, _.
  - right; left. repeat split. by eexists.
  - left. repeat split. by eexists _, _.
Qed.

(** C6, amended: a run ends in one of the two one-line forms (status 0 with
    exactly one line on standard output, the JSON object with the keys algo
    and hash; or status 1 with exactly one line on standard output, Error:
    followed by the message; nothing on standard error in both) exactly when
    it is not a run down the unsupported-algorithm path whose ALGO value
    holds a line feed or a character the console cannot write. *)
Theorem two_forms_one_line (env : gmap string (list Z)) :
  echo_fits tty env = true ↔
  two_line_forms (program isprintable hashlib_other tty env).
Proof.
  unfold echo_fits, two_line_forms.
  destruct (program_cases env)
    as [[He ->] | [(He & Hw & ->) | [(He & Hw & i & j & ->)
         | [(He & _ & d & i & j & _ & ->) | (He & Hs & d & bs & _ & _ & ->)]]]];
    rewrite He; cbn [implb out stdout stderr status
                     data_error algo_error algo_crash encode_error success].
  - split; [intros _ | done]. split; [done|]. right.
    split; [done|]. split; [reflexivity | by eexists].
  - rewrite Hw, andb_true_r, <- algo_line_one_line.
    split.
    + intros Hlf. split; [done|]. right. split; [done|].
      split; [done | by eexists].
    + intros [_ [(H0 & _) | (_ & H1 & _)]]; [discriminate H0 | done].
  - rewrite Hw, andb_false_r. split; [discriminate|].
    intros [_ [(H0 & _) | (_ & H1 & _)]]; [discriminate H0 | discriminate H1].
  - split; [intros _ | done]. split; [done|]. right. split; [done|].
    split; [|by eexists].
    apply error_line_one_line, encode_error_no_line_feed.
  - split; [intros _ | done]. split; [done|]. left. split; [done|].
    pose proof (hexs_lower (selected_digest
                  (os_getenv_default env "ALGO" (Py.lit "sha256")) bs)) as Hh.
    split.
    + apply success_line_one_line; [by apply supported_no_line_feed|].
      by apply lower_hex_no_line_feed.
    + eexists _, _. split; [|split; [|reflexivity]].
      * by apply supported_cases in Hs as [-> | ->].
      * by apply lower_hex_copied.
Qed.

(** C7: whenever a run exits with status 0, its output is the JSON line
    for some algo field and hash field, where the algo field is in the
    supported list, every character of the hash field is a lowercase
    hexadecimal digit, and the hash field has 64 characters when algo is
    sha256 and 32 when algo is md5. *)
Theorem result_fields (env : gmap string (list Z)) :
  status (program isprintable hashlib_other tty env) = 0 →
  ∃ a h, stdout (out (program isprintable hashlib_other tty env))
         = success_line a h ∧
         a ∈ SUPPORTED_HASH_ALGORITHMS ∧
         forallb is_lower_hex h = true ∧
         (a = Py.lit "sha256" → length h = 64%nat) ∧
         (a = Py.lit "md5" → length h = 32%nat).
Proof.
  intros Hst.
  destruct (program_cases env)
    as [[_ H] | [(_ & _ & H) | [(_ & _ & i & j & H)
         | [(_ & _ & d & i & j & _ & H) | (_ & Hs & d & bs & _ & _ & H)]]]];
    rewrite H in Hst |- *; try discriminate Hst.
  exists (os_getenv_default env "ALGO" (Py.lit "sha256")),
         (hexs (selected_digest
                  (os_getenv_default env "ALGO" (Py.lit "sha256")) bs)).
  split; [done|]. split; [done|]. split; [apply hexs_lower|].
  rewrite selected_digest_hex_length.
  split; intros ->; reflexivity.
Qed.

(** C9: when ALGO is set to the empty string and DATA is non-empty, the run
    does not use the sha256 default: it prints the unsupported-algorithm
    error for the empty name and exits with status 1. *)
Theorem empty_algo_rejected (env : gmap string (list Z)) (d : list Z) :
  env !! "DATA"%string = Some d → d ≠ [] →
  env !! "ALGO"%string = Some [] →
  program isprintable hashlib_other tty env =
    Outcome (Streams (error_line
      (Py.lit "Unsupported hash algorithm:  not in ['sha256', 'md5']")) []) 1.
Proof.
  intros Hd Hne Ha.
  rewrite (program_unsupported env d []); try done.
  - unfold os_getenv_default. by rewrite Ha.
  - rewrite supported_cases. intros [H | H]; discriminate H.
Qed.

(** C10: DATA is checked before ALGO: when DATA is absent or empty and
    ALGO is set to a value outside the supported list, the run reports the
    missing-data error and not the unsupported-algorithm error for that
    value. *)
Theorem data_checked_first (env : gmap string (list Z)) (a : list Z) :
  env !! "DATA"%string = None ∨ env !! "DATA"%string = Some [] →
  env !! "ALGO"%string = Some a → a ∉ SUPPORTED_HASH_ALGORITHMS →
  program isprintable hashlib_other tty env = data_error ∧
  program isprintable hashlib_other tty env ≠ algo_error a.
Proof.
  intros Hd _ _. rewrite (program_no_data env Hd). split; [done|].
  discriminate.
Qed.

End Properties.

(** C8: for a supported algorithm and a non-empty DATA, the outcome is
    determined by DATA and the algorithm alone: two runs with the same DATA
    and the same algorithm produce identical output and exit status,
    whatever else their environments hold and whatever interpreter and
    console they run on. *)
Theorem deterministic_in_inputs
    (isprintable isprintable' : Z → bool)
    (hashlib_other hashlib_other' : list Z → option (list Z → list Z))
    (tty tty' : console)
    (env1 env2 : gmap string (list Z)) (d a : list Z) :
  env1 !! "DATA"%string = Some d → env2 !! "DATA"%string = Some d → d ≠ [] →
  os_getenv_default env1 "ALGO" (Py.lit "sha256") = a →
  os_getenv_default env2 "ALGO" (Py.lit "sha256") = a →
  a ∈ SUPPORTED_HASH_ALGORITHMS →
  program isprintable hashlib_other tty env1
  = program isprintable' hashlib_other' tty' env2.
Proof.
  intros Hd1 Hd2 Hne Ha1 Ha2 Hs.
  destruct (Py.utf8 d) as [[i j] | bs] eqn:He.
  - by rewrite (program_encode_error _ _ tty env1 d a i j),
               (program_encode_error _ _ tty' env2 d a i j).
  - by rewrite (program_success _ _ tty env1 d a bs),
               (program_success _ _ tty' env2 d a bs).
Qed.

(** ** The claims at concrete inputs *)

Lemma hello_scenarios_witness :
  program ascii_printable no_other_hash strict_utf8 {[ "DATA"%string := Py.lit "hello" ]}
  = Outcome (Streams (success_line (Py.lit "sha256")
      (Py.lit "2cf24dba5fb0a30e26e83b2ac5b9e29e1b161e5c1fa7425e73043362938b9824"))
      []) 0 ∧
  program ascii_printable no_other_hash strict_utf8
    {[ "DATA"%string := Py.lit "hello"; "ALGO"%string := Py.lit "md5" ]}
  = Outcome (Streams (success_line (Py.lit "md5")
      (Py.lit "5d41402abc4b2a76b9719d911017c592")) []) 0.
Proof.
  split.
  - apply (hello_scenarios ascii_printable no_other_hash strict_utf8
             {[ "DATA"%string := Py.lit "hello" ]}); reflexivity.
  - apply (hello_scenarios ascii_printable no_other_hash strict_utf8
             {[ "DATA"%string := Py.lit "hello";
                "ALGO"%string := Py.lit "md5" ]}); reflexivity.
Defined.

(** The text h e-acute l l o, space, euro sign, grinning face: code points
    of one, two, three and four octets. The digest is the reference value of
    the sha256 of its 14 UTF-8 octets. *)
Lemma digest_over_utf8_witness :
  Py.utf8 [104; 233; 108; 108; 111; 32; 0x20AC; 0x1F600]
  = inr [104; 195; 169; 108; 108; 111; 32; 226; 130; 172; 240; 159; 152; 128] ∧
  Py.utf8_decode
    [104; 195; 169; 108; 108; 111; 32; 226; 130; 172; 240; 159; 152; 128]
  = Some [104; 233; 108; 108; 111; 32; 0x20AC; 0x1F600] ∧
  program ascii_printable no_other_hash strict_utf8
    {[ "DATA"%string := [104; 233; 108; 108; 111; 32; 0x20AC; 0x1F600] ]}
  = Outcome (Streams (success_line (Py.lit "sha256")
      (Py.lit "5350f147c6ff4293fd01390ef97e6cdb1cf3ad691d5c47f77246262f59dd1003"))
      []) 0.
Proof.
  apply (digest_over_utf8 ascii_printable no_other_hash strict_utf8
           {[ "DATA"%string := [104; 233; 108; 108; 111; 32; 0x20AC; 0x1F600] ]}
           [104; 233; 108; 108; 111; 32; 0x20AC; 0x1F600] (Py.lit "sha256")).
  - reflexivity.
  - discriminate.
  - reflexivity.
  - reflexivity.
  - apply supported_cases. left. reflexivity.
Defined.

(** The one-character text e-acute, U+00E9: the printed hash is the sha256
    of the two octets C3 A9, not of the single octet E9 that the code point
    itself would be. *)
Example e_acute_hashed_as_utf8 :
  program ascii_printable no_other_hash strict_utf8 {[ "DATA"%string := [0xE9] ]}
  = Outcome (Streams (success_line (Py.lit "sha256")
      (hexs (SHA256.digest [0xC3; 0xA9]))) []) 0 ∧
  hexs (SHA256.digest [0xC3; 0xA9]) = Py.lit
    "4a99557e4033c3539de2eb65472017cad5f9557f7a0625a09f1c3f6e2ba69c4c" ∧
  hexs (SHA256.digest [0xE9]) = Py.lit
    "de2e331d891ae267a7009cb45b4e8830f170e0c937288ea2731a1941c7a53b0d".
Proof. vm_compute. repeat split. Qed.

Lemma default_is_sha256_witness :
  program ascii_printable no_other_hash strict_utf8 {[ "DATA"%string := Py.lit "hello" ]}
  = program ascii_printable no_other_hash strict_utf8
      (<["ALGO"%string := Py.lit "sha256"]> {[ "DATA"%string := Py.lit "hello" ]}).
Proof.
  apply (default_is_sha256 ascii_printable no_other_hash strict_utf8). reflexivity.
Defined.

Lemma unsupported_algorithm_reported_witness :
  ∃ msg,
    program ascii_printable no_other_hash strict_utf8
      {[ "DATA"%string := Py.lit "x"; "ALGO"%string := Py.lit "sha1" ]}
    = Outcome (Streams (error_line msg) []) 1 ∧
    status (program ascii_printable no_other_hash strict_utf8
      {[ "DATA"%string := Py.lit "x"; "ALGO"%string := Py.lit "sha1" ]}) ≠ 0 ∧
    contains (Py.lit "sha1") msg = true ∧
    contains (Py.lit "sha256") msg = true ∧
    contains (Py.lit "md5") msg = true.
Proof.
  apply (unsupported_algorithm_reported ascii_printable no_other_hash strict_utf8
           {[ "DATA"%string := Py.lit "x"; "ALGO"%string := Py.lit "sha1" ]}
           (Py.lit "x") (Py.lit "sha1")).
  - reflexivity.
  - discriminate.
  - reflexivity.
  - intros [H | H]%supported_cases; discriminate H.
  - reflexivity.
Defined.

(** C4 as stated fails where the console cannot write the ALGO value. With
    DATA set to x: on a strict UTF-8 console with ALGO set to the surrogate
    U+DCFF (what [os.getenv] yields for the octet FF), and on an ASCII
    console with ALGO set to sha256 followed by e-acute, the [print] of the
    guard raises, standard output stays empty and holds no Error line, and
    the report goes to standard error. *)
Lemma unsupported_algorithm_counterexample :
  (¬ ∃ msg,
       stdout (out (program ascii_printable no_other_hash strict_utf8
                      {[ "DATA"%string := Py.lit "x";
                         "ALGO"%string := [0xDCFF] ]}))
       = error_line msg) ∧
  (¬ ∃ msg,
       stdout (out (program ascii_printable no_other_hash ascii_console
                      {[ "DATA"%string := Py.lit "x";
                         "ALGO"%string := Py.lit "sha256" ++ [0xE9] ]}))
       = error_line msg).
Proof.
  split; intros [msg H]; vm_compute in H; discriminate H.
Qed.

(** The whole outcome at the first of these inputs. *)
Example unwritable_algo_outcome :
  program ascii_printable no_other_hash strict_utf8
    {[ "DATA"%string := Py.lit "x"; "ALGO"%string := [0xDCFF] ]}
  = algo_crash strict_utf8 [0xDCFF] 35 36.
Proof. vm_compute. reflexivity. Qed.

Lemma missing_data_reported_witness :
  program ascii_printable no_other_hash strict_utf8 {[ "DATA"%string := [] ]}
  = Outcome (Streams (error_line (Py.lit "A data argument must be provided"))
               []) 1 ∧
  ∀ a h, stdout (out (program ascii_printable no_other_hash strict_utf8
                        {[ "DATA"%string := [] ]})) ≠ success_line a h.
Proof.
  apply (missing_data_reported ascii_printable no_other_hash strict_utf8
           {[ "DATA"%string := [] ]}).
  right. reflexivity.
Defined.

(** C6 as stated fails: with DATA set to x and ALGO set to the two lines
    sha1 and x, the run exits with status 1 and its standard output holds two
    lines, the message being broken where the ALGO value is. *)
Lemma two_forms_counterexample :
  ¬ two_line_forms
      (program ascii_printable no_other_hash strict_utf8
         {[ "DATA"%string := Py.lit "x";
            "ALGO"%string := Py.lit "sha1" ++ [10] ++ Py.lit "x" ]}).
Proof.
  intros [_ [(H & _) | (_ & H & _)]]; vm_compute in H; discriminate H.
Qed.

Lemma two_forms_one_line_witness :
  two_line_forms
    (program ascii_printable no_other_hash strict_utf8
       {[ "DATA"%string := Py.lit "x"; "ALGO"%string := Py.lit "sha1" ]}).
Proof.
  apply (two_forms_one_line ascii_printable no_other_hash strict_utf8).
  reflexivity.
Defined.

Lemma result_fields_witness :
  ∃ a h,
    stdout (out (program ascii_printable no_other_hash strict_utf8
                   {[ "DATA"%string := Py.lit "hello" ]})) = success_line a h ∧
    a ∈ SUPPORTED_HASH_ALGORITHMS ∧
    forallb is_lower_hex h = true ∧
    (a = Py.lit "sha256" → length h = 64%nat) ∧
    (a = Py.lit "md5" → length h = 32%nat).
Proof.
  apply (result_fields ascii_printable no_other_hash strict_utf8). reflexivity.
Defined.

(** The second run has more in its environment and an ASCII console. *)
Lemma deterministic_in_inputs_witness :
  program ascii_printable no_other_hash strict_utf8
    {[ "DATA"%string := [104; 233]; "ALGO"%string := Py.lit "md5" ]}
  = program ascii_printable no_other_hash ascii_console
      {[ "DATA"%string := [104; 233]; "ALGO"%string := Py.lit "md5";
         "LC_ALL"%string := Py.lit "C" ]}.
Proof.
  apply (deterministic_in_inputs ascii_printable ascii_printable
           no_other_hash no_other_hash strict_utf8 ascii_console
           _ _ [104; 233] (Py.lit "md5")).
  - reflexivity.
  - reflexivity.
  - discriminate.
  - reflexivity.
  - reflexivity.
  - apply supported_cases. right. reflexivity.
Defined.

Lemma empty_algo_rejected_witness :
  program ascii_printable no_other_hash strict_utf8
    {[ "DATA"%string := Py.lit "x"; "ALGO"%string := [] ]}
  = Outcome (Streams (error_line
      (Py.lit "Unsupported hash algorithm:  not in ['sha256', 'md5']")) []) 1.
Proof.
  apply (empty_algo_rejected ascii_printable no_other_hash strict_utf8 _ (Py.lit "x"));
    [reflexivity | discriminate | reflexivity].
Defined.

Lemma data_checked_first_witness :
  program ascii_printable no_other_hash strict_utf8
    {[ "DATA"%string := []; "ALGO"%string := Py.lit "sha1" ]} = data_error ∧
  program ascii_printable no_other_hash strict_utf8
    {[ "DATA"%string := []; "ALGO"%string := Py.lit "sha1" ]}
  ≠ algo_error (Py.lit "sha1").
Proof.
  apply (data_checked_first ascii_printable no_other_hash strict_utf8
           {[ "DATA"%string := []; "ALGO"%string := Py.lit "sha1" ]}).
  - right. reflexivity.
  - reflexivity.
  - intros [H | H]%supported_cases; discriminate H.
Defined.

(** * Further properties of the program *)

(** ** When the encoder gives up *)

Lemma utf8_from_encodable (pos : nat) (s : list Z) :
  encodable s = true → Py.utf8_from pos s = inr (flat_map Py.utf8_char s).
Proof.
  revert pos. induction s as [|c s IH]; intros pos H; [done|].
  simpl in H. apply andb_true_iff in H as [Hc Hs].
  apply negb_true_iff in Hc. simpl. by rewrite Hc, (IH (S pos) Hs).
Qed.

Lemma utf8_from_surrogate (pos : nat) (pre : list Z) (c : Z) (post : list Z) :
  encodable pre = true → Py.is_surrogate c = true →
  Py.utf8_from pos (pre ++ c :: post)
  = inl ((pos + length pre)%nat,
         (S (pos + length pre) + Py.surrogate_run post)%nat).
Proof.
  intros Hpre Hc. revert pos.
  induction pre as [|x pre IH]; intros pos; simpl.
  - rewrite Hc. f_equal. f_equal; lia.
  - simpl in Hpre. apply andb_true_iff in Hpre as [Hx Hpre].
    apply negb_true_iff in Hx. rewrite Hx, (IH Hpre (S pos)).
    f_equal. f_equal; lia.
Qed.

Lemma utf8_from_inr_encodable (pos : nat) (s bs : list Z) :
  Py.utf8_from pos s = inr bs → encodable s = true.
Proof.
  revert pos bs. induction s as [|c s IH]; intros pos bs H; [done|].
  simpl in H. simpl. destruct (Py.is_surrogate c); [discriminate H|].
  destruct (Py.utf8_from (S pos) s) as [e | bs'] eqn:E; [discriminate H|].
  simpl. by eapply IH.
Qed.

(** ** Facts about the encoder and about printable text *)

Lemma utf8_char_ascii (c : Z) : is_ascii c = true → Py.utf8_char c = [c].
Proof.
  unfold is_ascii. intros [H0 H1]%andb_true_iff.
  apply Z.leb_le in H0. unfold Py.utf8_char. rewrite H1.
  apply Z.ltb_lt in H1. by rewrite ascii_octet, Z.mod_small by lia.
Qed.

Lemma utf8_ascii (s : list Z) :
  forallb is_ascii s = true → Py.utf8 s = inr s.
Proof.
  intros H. unfold Py.utf8.
  assert (encodable s = true ∧ flat_map Py.utf8_char s = s) as [He Hf].
  { induction s as [|c s IH]; [done|].
    simpl in H. apply andb_true_iff in H as [Hc Hs].
    destruct (IH Hs) as [He Hf]. split.
    - simpl. rewrite He, andb_true_r. apply negb_true_iff.
      unfold is_ascii in Hc. unfold Py.is_surrogate. lia.
    - simpl. by rewrite (utf8_char_ascii c Hc), Hf. }
  by rewrite (utf8_from_encodable 0 s He), Hf.
Qed.

Lemma utf8_char_octets (c : Z) :
  Py.is_scalar c = true →
  forallb is_octet (Py.utf8_char c) = true ∧
  (1 ≤ length (Py.utf8_char c) ≤ 4)%nat.
Proof.
  intros [Hr Hs]%scalar_range. unfold Py.utf8_char.
  destruct (Z.ltb_spec c 0x80) as [H1 | H1];
    [|destruct (Z.ltb_spec c 0x800) as [H2 | H2];
      [|destruct (Z.ltb_spec c 0x10000) as [H3 | H3]]];
    octets; (split; [|simpl; lia]); cbn [forallb]; unfold is_octet;
    rewrite ?andb_true_iff, ?Z.leb_le, ?Z.ltb_lt;
    Z.div_mod_to_equations; lia.
Qed.

(** X7: the encoder loses nothing: two well-formed texts that encode to the
    same result are the same text, so different payloads are never hashed as
    the same octets. *)
Theorem distinct_texts_distinct_octets (d1 d2 : list Z) :
  Py.is_text d1 = true → Py.is_text d2 = true →
  Py.utf8 d1 = Py.utf8 d2 → d1 = d2.
Proof.
  intros H1 H2 He.
  rewrite (utf8_text d1 H1), (utf8_text d2 H2) in He.
  injection He as He.
  pose proof (utf8_decode_encode d1 H1) as D1.
  rewrite He, (utf8_decode_encode d2 H2) in D1. by injection D1.
Qed.

(** X8: what the encoder hands to the digest for a well-formed text is a
    proper [bytes] value: every element lies between 0 and 255, and each
    character takes between one and four of them. *)
Theorem encoded_payload_is_bytes (d : list Z) :
  Py.is_text d = true →
  forallb is_octet (flat_map Py.utf8_char d) = true ∧
  (length d ≤ length (flat_map Py.utf8_char d) ≤ 4 * length d)%nat.
Proof.
  induction d as [|c d IH]; [done|].
  intros [Hc Hd]%andb_true_iff.
  destruct (IH Hd) as [Ho Hl]. destruct (utf8_char_octets c Hc) as [Hoc Hlc].
  cbn [flat_map]. rewrite forallb_app, length_app, Hoc, Ho.
  split; [done|]. simpl length. lia.
Qed.

Section Further.

Variable isprintable : Z → bool.
Variable hashlib_other : list Z → option (list Z → list Z).
Variable tty : console.

(** X1: a payload that holds a surrogate, as [os.getenv] yields for octets
    of the environment that are not UTF-8, is not hashed: with a supported
    algorithm the run prints the codec's message behind Error:, naming the
    position of the first surrogate and the end of the run of surrogates
    there, and exits with status 1. *)
Theorem undecodable_data_reported
    (env : gmap string (list Z)) (pre : list Z) (c : Z) (post a : list Z) :
  env !! "DATA"%string = Some (pre ++ c :: post) →
  encodable pre = true → Py.is_surrogate c = true →
  os_getenv_default env "ALGO" (Py.lit "sha256") = a →
  a ∈ SUPPORTED_HASH_ALGORITHMS →
  program isprintable hashlib_other tty env
  = encode_error (pre ++ c :: post) (length pre)
      (S (length pre) + Py.surrogate_run post).
Proof.
  intros Hd Hpre Hc Ha Hs.
  apply (program_encode_error isprintable hashlib_other tty env _ a); try done.
  - by destruct pre.
  - unfold Py.utf8. by rewrite (utf8_from_surrogate 0 pre c post).
Qed.

(** X2: the run exits with status 0 exactly when DATA is set to a non-empty
    string without surrogates and the value taken for ALGO is in the
    supported list. *)
Theorem success_iff (env : gmap string (list Z)) :
  status (program isprintable hashlib_other tty env) = 0 ↔
  ∃ d, env !! "DATA"%string = Some d ∧ d ≠ [] ∧ encodable d = true ∧
       os_getenv_default env "ALGO" (Py.lit "sha256")
         ∈ SUPPORTED_HASH_ALGORITHMS.
Proof.
  split.
  - intros Hst.
    destruct (program_cases isprintable hashlib_other tty env)
      as [[_ H] | [(_ & _ & H) | [(_ & _ & i & j & H)
           | [(_ & _ & d & i & j & _ & H) | (_ & Hs & d & bs & Hd & He & H)]]]];
      rewrite H in Hst; try discriminate Hst.
    exists d. split; [done|]. split; [|split; [|done]].
    + intros ->.
      rewrite (program_no_data isprintable hashlib_other tty env) in H
        by (by right).
      discriminate H.
    + by apply (utf8_from_inr_encodable 0 d bs).
  - intros (d & Hd & Hne & He & Hs).
    by rewrite (program_success isprintable hashlib_other tty env d _
                  (flat_map Py.utf8_char d))
      by (done || by apply utf8_from_encodable).
Qed.

(** X3: the exit status is 0 or 1, and standard output tells which except
    in one case. The output opens with a brace exactly when the status is 0.
    With status 1 it opens with Error: unless it is empty, and it is empty
    exactly when the run goes down the unsupported-algorithm path with an
    ALGO value the console cannot write. *)
Theorem status_tells_form (env : gmap string (list Z)) :
  (status (program isprintable hashlib_other tty env) = 0 ∨
   status (program isprintable hashlib_other tty env) = 1) ∧
  (status (program isprintable hashlib_other tty env) = 0 ↔
   starts_with (Py.lit "{")
     (stdout (out (program isprintable hashlib_other tty env))) = true) ∧
  (status (program isprintable hashlib_other tty env) = 1 ∧
   stdout (out (program isprintable hashlib_other tty env)) ≠ [] ↔
   starts_with (Py.lit "Error: ")
     (stdout (out (program isprintable hashlib_other tty env))) = true) ∧
  (stdout (out (program isprintable hashlib_other tty env)) = [] ↔
   echoes_algo env = true ∧
   writable tty (os_getenv_default env "ALGO" (Py.lit "sha256")) = false).
Proof.
  destruct (program_cases isprintable hashlib_other tty env)
    as [[He ->] | [(He & Hw & ->) | [(He & Hw & i & j & ->)
         | [(He & _ & d & i & j & _ & ->) | (He & _ & d & bs & _ & _ & ->)]]]];
    rewrite He, ?Hw;
    cbn [status out stdout data_error algo_error algo_crash
         encode_error success];
    (split; [by (left + right)|]);
    (split; [split; intros H; first [done | discriminate H]|]);
    split; split;
      first [ intros [H1 H2]; first [done | discriminate H1 | apply starts_with_app ]
            | intros H; first [ done | discriminate H
                              | by destruct H as [H _]
                              | by destruct H as [_ H] ] ].
Qed.

(** X4: [main] on streams that already hold text. When it raises it has
    written nothing; when it returns it has appended exactly one JSON line to
    standard output. Standard error is left as it was in both cases. *)
Theorem main_frame (env : gmap string (list Z)) (st : streams) :
  match main isprintable hashlib_other tty env st with
  | (Raises _, st') => st' = st
  | (Returns _, st') =>
      stderr st' = stderr st ∧
      ∃ a h, a ∈ SUPPORTED_HASH_ALGORITHMS ∧ forallb is_lower_hex h = true ∧
             stdout st' = stdout st ++ success_line a h
  end.
Proof.
  destruct (env !! "DATA"%string) as [d|] eqn:Hd;
    [|by unfold main, os_getenv; rewrite Hd].
  destruct (decide (d = [])) as [-> | Hne];
    [by unfold main, os_getenv; rewrite Hd|].
  set (a := os_getenv_default env "ALGO" (Py.lit "sha256")).
  destruct (decide (a ∈ SUPPORTED_HASH_ALGORITHMS)) as [Hs | Hs];
    [|by rewrite (main_unsupported isprintable hashlib_other tty env d a)].
  destruct (Py.utf8 d) as [[i j] | bs] eqn:He.
  - by rewrite (main_encode_error isprintable hashlib_other tty env d a i j).
  - rewrite (main_success isprintable hashlib_other tty env d a bs) by done.
    split; [done|]. exists a, (hexs (selected_digest a bs)).
    split; [done|]. split; [apply hexs_lower | done].
Qed.

(** X5: the allow-list shields the run from the rest of the interpreter:
    the outcome is the same whatever further algorithm names [hashlib.new]
    knows and whatever code points [repr] takes as printable. *)
Theorem outcome_independent_of_interpreter
    (isprintable' : Z → bool)
    (hashlib_other' : list Z → option (list Z → list Z))
    (env : gmap string (list Z)) :
  program isprintable hashlib_other tty env
  = program isprintable' hashlib_other' tty env.
Proof.
  destruct (env !! "DATA"%string) as [d|] eqn:Hd;
    [|by rewrite !program_no_data by (by left)].
  destruct (decide (d = [])) as [-> | Hne];
    [by rewrite !program_no_data by (by right)|].
  set (a := os_getenv_default env "ALGO" (Py.lit "sha256")).
  destruct (decide (a ∈ SUPPORTED_HASH_ALGORITHMS)) as [Hs | Hs].
  - destruct (Py.utf8 d) as [[i j] | bs] eqn:He.
    + by rewrite !(program_encode_error _ _ tty env d a i j).
    + by rewrite !(program_success _ _ tty env d a bs).
  - unfold program.
    by rewrite !(main_unsupported _ _ tty env d a).
Qed.

(** ** What is fed to the digest *)

(** X6: ASCII payloads are hashed as they are: when every character of a
    non-empty DATA is ASCII and the algorithm is supported, the printed hash
    is the digest of the very character codes of DATA. *)
Theorem ascii_data_hashed_verbatim
    (env : gmap string (list Z)) (d a : list Z) :
  env !! "DATA"%string = Some d → d ≠ [] → forallb is_ascii d = true →
  os_getenv_default env "ALGO" (Py.lit "sha256") = a →
  a ∈ SUPPORTED_HASH_ALGORITHMS →
  program isprintable hashlib_other tty env
  = Outcome (Streams (success_line a (hexs (selected_digest a d))) []) 0.
Proof.
  intros Hd Hne Hasc Ha Hs.
  apply (program_success isprintable hashlib_other tty env d a d); try done.
  by apply utf8_ascii.
Qed.

(** ** What reaches standard output *)

(** X9: when the value taken for ALGO is printable ASCII, the run writes
    nothing to standard error and the whole of standard output is printable
    ASCII closed by one line feed, whatever DATA holds and whatever the
    console can write. *)
Theorem output_is_printable_ascii (env : gmap string (list Z)) :
  forallb printable_ascii
    (os_getenv_default env "ALGO" (Py.lit "sha256")) = true →
  stderr (out (program isprintable hashlib_other tty env)) = [] ∧
  ∃ body,
    stdout (out (program isprintable hashlib_other tty env)) = body ++ [10] ∧
    forallb printable_ascii body = true.
Proof.
  intros Hp.
  destruct (program_cases isprintable hashlib_other tty env)
    as [[_ ->] | [(_ & _ & ->) | [(_ & Hw & _)
         | [(_ & _ & d & i & j & _ & ->) | (_ & Hs & d & bs & _ & _ & ->)]]]];
    [ | | by rewrite (printable_writable tty _ Hp) in Hw | | ];
    (split; [done|]);
    cbn [out stdout data_error algo_error encode_error success];
    unfold error_line, success_line; rewrite !app_assoc;
    (eexists; split; [reflexivity|]); rewrite !forallb_app.
  - reflexivity.
  - by rewrite Hp.
  - by rewrite encode_error_printable.
  - by rewrite Hp, (lower_hex_printable _ (hexs_lower _)).
Qed.

End Further.

(** ** The further properties at concrete inputs *)

(** DATA is the letter a, two surrogates and the letter b: the message names
    the positions 1 to 2. *)
Lemma undecodable_data_reported_witness :
  program ascii_printable no_other_hash strict_utf8
    {[ "DATA"%string := [97; 0xDC80; 0xDC81; 98] ]}
  = encode_error [97; 0xDC80; 0xDC81; 98] 1 3.
Proof.
  apply (undecodable_data_reported ascii_printable no_other_hash strict_utf8
           {[ "DATA"%string := [97; 0xDC80; 0xDC81; 98] ]}
           [97] 0xDC80 [0xDC81; 98] (Py.lit "sha256")).
  - reflexivity.
  - reflexivity.
  - reflexivity.
  - reflexivity.
  - apply supported_cases. left. reflexivity.
Defined.

(** A single space is a payload like any other. *)
Lemma success_iff_witness :
  status (program ascii_printable no_other_hash strict_utf8
            {[ "DATA"%string := Py.lit " "; "ALGO"%string := Py.lit "md5" ]}) = 0.
Proof.
  apply (success_iff ascii_printable no_other_hash strict_utf8
           {[ "DATA"%string := Py.lit " "; "ALGO"%string := Py.lit "md5" ]}).
  exists (Py.lit " ").
  split; [reflexivity|]. split; [discriminate|]. split; [reflexivity|].
  apply supported_cases. right. reflexivity.
Defined.

Lemma ascii_data_hashed_verbatim_witness :
  program ascii_printable no_other_hash strict_utf8
    {[ "DATA"%string := Py.lit "hello"; "ALGO"%string := Py.lit "md5" ]}
  = Outcome (Streams (success_line (Py.lit "md5")
               (hexs (selected_digest (Py.lit "md5") (Py.lit "hello")))) []) 0.
Proof.
  apply (ascii_data_hashed_verbatim ascii_printable no_other_hash strict_utf8
           {[ "DATA"%string := Py.lit "hello"; "ALGO"%string := Py.lit "md5" ]}
           (Py.lit "hello") (Py.lit "md5")).
  - reflexivity.
  - discriminate.
  - reflexivity.
  - reflexivity.
  - apply supported_cases. right. reflexivity.
Defined.

Lemma distinct_texts_distinct_octets_witness :
  [233; 0x20AC] = [233; 0x20AC].
Proof.
  apply (distinct_texts_distinct_octets [233; 0x20AC] [233; 0x20AC]);
    reflexivity.
Defined.

Lemma encoded_payload_is_bytes_witness :
  forallb is_octet (flat_map Py.utf8_char [104; 233; 0x20AC; 0x1F600]) = true ∧
  (length [104; 233; 0x20AC; 0x1F600]%Z
   ≤ length (flat_map Py.utf8_char [104; 233; 0x20AC; 0x1F600]%Z)
   ≤ 4 * length [104; 233; 0x20AC; 0x1F600]%Z)%nat.
Proof.
  apply (encoded_payload_is_bytes [104; 233; 0x20AC; 0x1F600]). reflexivity.
Defined.

(** DATA is one surrogate and ALGO is unset: the output is plain ASCII. *)
Lemma output_is_printable_ascii_witness :
  stderr (out (program ascii_printable no_other_hash strict_utf8
                 {[ "DATA"%string := [0xDC80] ]})) = [] ∧
  ∃ body,
    stdout (out (program ascii_printable no_other_hash strict_utf8
                   {[ "DATA"%string := [0xDC80] ]})) = body ++ [10] ∧
    forallb printable_ascii body = true.
Proof.
  apply (output_is_printable_ascii ascii_printable no_other_hash strict_utf8
           {[ "DATA"%string := [0xDC80] ]}).
  reflexivity.
Defined.
